(** * ADCS supervisor (src/adcsSSP.cpp): mode state machine, fault manager
      and persistent-state writes, embedded as state-passing functions.

    The C++ program is single-threaded; one [StateMachine] object owns the
    live [ADCSState].  Member functions become functions on a [StateMachine]
    record.  Calls that the source makes on collaborators (sensors,
    actuators, non-volatile memory, watchdog) are recorded, in call order, in
    a ghost event log carried by the record, so that statements about "what
    is written" and "in which order" can be read off the log. *)

From Stdlib Require Import ZArith List Bool Lia.
From Stdlib Require Import Floats.SpecFloat.
Import ListNotations.

Open Scope Z_scope.

(** ** Machine types *)

(** [float] of the source: IEEE-754 binary32, 24 bits of precision. *)
Definition float := spec_float.
Definition prec : Z := 24.
Definition emax : Z := 128.

(** Integer literal converted to [float] (round to nearest even). *)
Definition float_of_Z (n : Z) : float := binary_normalize prec emax n 0 false.

(** Decimal literal [n/d] as the nearest [float]: both operands are exact,
    so the single correctly rounded division yields the literal's value. *)
Definition float_lit (n d : Z) : float :=
  SFdiv prec emax (float_of_Z n) (float_of_Z d).

(** [0.0f], also the value of a value-initialised float member. *)
Definition float_zero : float := S754_zero false.

(** [a > b] and [a < b] on floats; any comparison with NaN is false. *)
Definition float_gt (a b : float) : bool := SFltb b a.
Definition float_lt (a b : float) : bool := SFltb a b.

(** [std::array<float, 3>]. *)
Record array3 := mk_array3 { at0 : float; at1 : float; at2 : float }.

Definition array3_zero : array3 := mk_array3 float_zero float_zero float_zero.

(** [uint16_t] result stored into a wider unsigned field. *)
Definition wrap_u16 (n : Z) : Z := n mod 2 ^ 16.

(** ** Data model *)

Inductive ADCSMode :=
| DETUMBLING
| SUN_ACQUISITION
| NOMINAL_POINTING
| SAFE_MODE
| FAULT_RECOVERY.

Definition ADCSMode_eqb (a b : ADCSMode) : bool :=
  match a, b with
  | DETUMBLING, DETUMBLING
  | SUN_ACQUISITION, SUN_ACQUISITION
  | NOMINAL_POINTING, NOMINAL_POINTING
  | SAFE_MODE, SAFE_MODE
  | FAULT_RECOVERY, FAULT_RECOVERY => true
  | _, _ => false
  end.

(** The live state, [struct ADCSState]. *)
Record ADCSState := mk_ADCSState {
  current_mode : ADCSMode;
  mode_entry_time : Z;          (* uint32_t *)
  angular_velocity : array3;
  power_level : float
}.

(** The record type of the store, [NonVolatileMemory::ADCSState]. *)
Module NonVolatileMemory.
Record ADCSState := mk_ADCSState {
  current_mode : ADCSMode;
  mode_entry_time : Z;
  angular_velocity : array3;
  power_level : float;
  timestamp : float;
  checksum : float
}.
End NonVolatileMemory.

(** ** Collaborators

    Functions whose bodies the source leaves to the hardware layer or leaves
    empty are taken as answers supplied by the platform.  One [Platform]
    value fixes what they answer during one call of the constructor or of
    [run_cycle].  The value-returning members of [StateMachine] among them
    may inspect the live state, so they receive it. *)
Record Platform := mk_Platform {
  read_imu : array3;                          (* source stub returns {} *)
  read_power_system : float;                  (* source stub returns 0.0f *)
  get_current_time : Z;                       (* uint16_t, no body *)
  check_sensors : bool;                       (* source stub returns false *)
  is_angular_rate_stable : ADCSState -> bool; (* no body *)
  sun_vectors_aligned : ADCSState -> bool;    (* no body *)
  power_restored : ADCSState -> bool;         (* no body *)
  fault_recovery_complete : ADCSState -> bool (* no body *)
}.

(** ** Event log *)

Inductive Event :=
| E_nvm_read                                   (* read_persistent_state() *)
| E_nvm_write (r : NonVolatileMemory.ADCSState)(* NonVolatileMemory::write *)
| E_read_sensors                               (* read_imu, read_power_system *)
| E_mode_exit (m : ADCSMode)                   (* execute_mode_exit *)
| E_run_mode (m : ADCSMode)                    (* run_detumbling, ... *)
| E_check_for_software_reset
| E_check_for_hardware_reset
| E_engage_magnetorquers
| E_power_system_slowdown
| E_reset_sensor_array
| E_execute_software_reset
| E_execute_hardware_reset
| E_watchdog_initialize
| E_watchdog_refresh.

(** The [StateMachine] object.  [fault_checker] and [watchdog] hold no data
    in the source; [log] is ghost. *)
Record StateMachine := mk_StateMachine {
  current_state : ADCSState;
  log : list Event
}.

Definition emit (e : Event) (sm : StateMachine) : StateMachine :=
  mk_StateMachine (current_state sm) (log sm ++ [e]).

Definition with_state (f : ADCSState -> ADCSState) (sm : StateMachine)
  : StateMachine :=
  mk_StateMachine (f (current_state sm)) (log sm).

Definition set_current_mode (m : ADCSMode) (s : ADCSState) : ADCSState :=
  mk_ADCSState m (mode_entry_time s) (angular_velocity s) (power_level s).

Definition set_mode_entry_time (t : Z) (s : ADCSState) : ADCSState :=
  mk_ADCSState (current_mode s) t (angular_velocity s) (power_level s).

Definition set_angular_velocity (v : array3) (s : ADCSState) : ADCSState :=
  mk_ADCSState (current_mode s) (mode_entry_time s) v (power_level s).

Definition set_power_level (p : float) (s : ADCSState) : ADCSState :=
  mk_ADCSState (current_mode s) (mode_entry_time s) (angular_velocity s) p.

(** ** FaultManager *)

Module FaultManager.

Inductive FaultType :=
| NONE
| HIGH_ANGULAR_RATE
| LOW_POWER
| SENSOR_ANOMALY
| CRITICAL
| SOFTWARE_RESET_REQUIRED.

Definition MAX_ANGULAR_RATE : float := float_lit 1 10.   (* 0.1f, rad/s *)
Definition LOW_POWER_THRESHOLD : float := float_of_Z 4.  (* 4.0f, Watts *)

Definition check_angular_rate (state : ADCSState) : bool :=
  float_gt (SFabs (at0 (angular_velocity state))) MAX_ANGULAR_RATE
  || float_gt (SFabs (at1 (angular_velocity state))) MAX_ANGULAR_RATE
  || float_gt (SFabs (at2 (angular_velocity state))) MAX_ANGULAR_RATE.

Definition check_power_level (state : ADCSState) : bool :=
  float_lt (power_level state) LOW_POWER_THRESHOLD.

Definition check_faults (pf : Platform) (state : ADCSState) : FaultType :=
  if check_angular_rate state then HIGH_ANGULAR_RATE
  else if check_power_level state then LOW_POWER
  else if check_sensors pf then SENSOR_ANOMALY
  else NONE.

End FaultManager.

(** ** StateMachine *)

Section Members.

Variable pf : Platform.

(** [NonVolatileMemory::write]: the record handed over is logged. *)
Definition NonVolatileMemory_write (state : NonVolatileMemory.ADCSState)
           (sm : StateMachine) : StateMachine :=
  emit (E_nvm_write state) sm.

(** Designated initialisers set [current_mode] and [timestamp]; the
    members not named are value-initialised. *)
Definition save_persistent_state (sm : StateMachine) : StateMachine :=
  let nvm_state :=
    NonVolatileMemory.mk_ADCSState
      (current_mode (current_state sm))
      0
      array3_zero
      float_zero
      (float_of_Z (mode_entry_time (current_state sm)))
      float_zero in
  NonVolatileMemory_write nvm_state sm.

Definition run_detumbling (sm : StateMachine) : StateMachine :=
  emit (E_run_mode DETUMBLING) sm.

Definition run_sun_acquisition (sm : StateMachine) : StateMachine :=
  emit (E_run_mode SUN_ACQUISITION) sm.

Definition run_nominal_pointing (sm : StateMachine) : StateMachine :=
  emit (E_run_mode NOMINAL_POINTING) sm.

Definition run_safe_mode (sm : StateMachine) : StateMachine :=
  let sm := emit (E_run_mode SAFE_MODE) sm in
  let sm := save_persistent_state sm in
  if fault_recovery_complete pf (current_state sm) then sm else sm.

Definition execute_state_behavior (mode : ADCSMode) (sm : StateMachine)
  : StateMachine :=
  match mode with
  | DETUMBLING => run_detumbling sm
  | SUN_ACQUISITION => run_sun_acquisition sm
  | NOMINAL_POINTING => run_nominal_pointing sm
  | SAFE_MODE => run_safe_mode sm
  | FAULT_RECOVERY => sm        (* default: break *)
  end.

Definition execute_mode_entry (mode : ADCSMode) (sm : StateMachine)
  : StateMachine :=
  execute_state_behavior mode sm.

Definition execute_mode_exit (mode : ADCSMode) (sm : StateMachine)
  : StateMachine :=
  emit (E_mode_exit mode) sm.

Definition update_sensor_data (sm : StateMachine) : StateMachine :=
  let sm := emit E_read_sensors sm in
  let sm := with_state (set_angular_velocity (read_imu pf)) sm in
  with_state (set_power_level (read_power_system pf)) sm.

Definition evaluate_transition_conditions (sm : StateMachine) : ADCSMode :=
  let previous_operational_mode := current_mode (current_state sm) in
  match current_mode (current_state sm) with
  | DETUMBLING =>
      if is_angular_rate_stable pf (current_state sm) then SUN_ACQUISITION
      else current_mode (current_state sm)
  | SUN_ACQUISITION =>
      if sun_vectors_aligned pf (current_state sm) then NOMINAL_POINTING
      else current_mode (current_state sm)
  | NOMINAL_POINTING => current_mode (current_state sm)
  | SAFE_MODE =>
      if power_restored pf (current_state sm) then previous_operational_mode
      else current_mode (current_state sm)
  | FAULT_RECOVERY =>
      if fault_recovery_complete pf (current_state sm)
      then previous_operational_mode
      else current_mode (current_state sm)
  end.

Definition check_state_transition (sm : StateMachine) : StateMachine :=
  let new_mode := evaluate_transition_conditions sm in
  if negb (ADCSMode_eqb new_mode (current_mode (current_state sm))) then
    let sm := execute_mode_exit (current_mode (current_state sm)) sm in
    let sm := with_state (set_current_mode new_mode) sm in
    let sm := with_state (set_mode_entry_time (wrap_u16 (get_current_time pf))) sm in
    let sm := execute_mode_entry new_mode sm in
    save_persistent_state sm
  else sm.

Definition handle_fault (fault : FaultManager.FaultType) (sm : StateMachine)
  : StateMachine :=
  let previous_operational_mode := current_mode (current_state sm) in
  match fault with
  | FaultManager.HIGH_ANGULAR_RATE =>
      let sm := emit E_engage_magnetorquers sm in
      with_state (set_current_mode DETUMBLING) sm
  | FaultManager.LOW_POWER =>
      let sm := emit E_power_system_slowdown sm in
      with_state (set_current_mode SAFE_MODE) sm
  | FaultManager.SENSOR_ANOMALY => emit E_reset_sensor_array sm
  | FaultManager.SOFTWARE_RESET_REQUIRED => emit E_execute_software_reset sm
  | FaultManager.CRITICAL => emit E_execute_hardware_reset sm
  | FaultManager.NONE => sm
  end.

Definition manage_faults (sm : StateMachine) : StateMachine :=
  let fault := FaultManager.check_faults pf (current_state sm) in
  match fault with
  | FaultManager.NONE => sm
  | _ => handle_fault fault sm
  end.

(** Both bodies are empty in the source. *)
Definition check_for_software_reset (sm : StateMachine) : StateMachine :=
  emit E_check_for_software_reset sm.

Definition check_for_hardware_reset (sm : StateMachine) : StateMachine :=
  emit E_check_for_hardware_reset sm.

Definition refresh_watchdog (sm : StateMachine) : StateMachine :=
  emit E_watchdog_refresh sm.

Definition run_cycle (sm : StateMachine) : StateMachine :=
  let sm := update_sensor_data sm in
  let sm := check_state_transition sm in
  let sm := execute_mode_entry (current_mode (current_state sm)) sm in
  let sm := check_for_software_reset sm in
  let sm := check_for_hardware_reset sm in
  let sm := manage_faults sm in
  refresh_watchdog sm.

End Members.

(** The constructor.  [is_corrupt] and [is_state_safe] are members without a
    body; they are parameters here.  [read_persistent_state()] is called and
    its result is not assigned, so the two checks see [current_state] as the
    object holds it at that point: that is the argument [record]. *)
Section Boot.

Variable is_corrupt : ADCSState -> ADCSMode -> bool.
Variable is_state_safe : ADCSState -> ADCSMode -> bool.

Definition StateMachine_ctor (record : ADCSState) : StateMachine :=
  let sm := emit E_nvm_read (mk_StateMachine record []) in
  let sm :=
    if is_corrupt (current_state sm) (current_mode (current_state sm)) then
      with_state (set_current_mode SAFE_MODE) sm
    else if negb (is_state_safe (current_state sm)
                                (current_mode (current_state sm))) then
      with_state (set_current_mode SAFE_MODE) sm
    else
      with_state (set_current_mode DETUMBLING) sm in
  emit E_watchdog_initialize sm.

End Boot.


(** ** Reading the log *)

(** Events appended between two points of one execution. *)
Definition events_between (before after : StateMachine) : list Event :=
  skipn (length (log before)) (log after).

(** Events of one control cycle. *)
Definition cycle_events (pf : Platform) (sm : StateMachine) : list Event :=
  events_between sm (run_cycle pf sm).

(** Records handed to [NonVolatileMemory::write], oldest first. *)
Fixpoint nvm_writes (evs : list Event) : list NonVolatileMemory.ADCSState :=
  match evs with
  | [] => []
  | E_nvm_write r :: rest => r :: nvm_writes rest
  | _ :: rest => nvm_writes rest
  end.

(** Event classes of the phases of a cycle. *)
Definition transition_event (e : Event) : Prop :=
  match e with
  | E_mode_exit _ | E_run_mode _ | E_nvm_write _ => True
  | _ => False
  end.

Definition behavior_event (e : Event) : Prop :=
  match e with
  | E_run_mode _ | E_nvm_write _ => True
  | _ => False
  end.

Definition fault_event (e : Event) : Prop :=
  match e with
  | E_engage_magnetorquers | E_power_system_slowdown | E_reset_sensor_array
  | E_execute_software_reset | E_execute_hardware_reset => True
  | _ => False
  end.

(** A store record that mirrors every field it shares with the live state. *)
Definition carries_state (r : NonVolatileMemory.ADCSState) (s : ADCSState)
  : Prop :=
  NonVolatileMemory.current_mode r = current_mode s
  /\ NonVolatileMemory.mode_entry_time r = mode_entry_time s
  /\ NonVolatileMemory.angular_velocity r = angular_velocity s
  /\ NonVolatileMemory.power_level r = power_level s.

(** The spec's severity order on faults
    (HIGH_ANGULAR_RATE > LOW_POWER > SENSOR_ANOMALY > SOFTWARE_RESET_REQUIRED
     > CRITICAL > NONE), as a rank. *)
Definition spec_severity (f : FaultManager.FaultType) : nat :=
  match f with
  | FaultManager.HIGH_ANGULAR_RATE => 5
  | FaultManager.LOW_POWER => 4
  | FaultManager.SENSOR_ANOMALY => 3
  | FaultManager.SOFTWARE_RESET_REQUIRED => 2
  | FaultManager.CRITICAL => 1
  | FaultManager.NONE => 0
  end%nat.

(** The condition under which a fault is a candidate on a state: the three
    inspections the fault manager owns; nothing inspects the other kinds. *)
Definition fault_condition (pf : Platform) (state : ADCSState)
           (f : FaultManager.FaultType) : bool :=
  match f with
  | FaultManager.HIGH_ANGULAR_RATE => FaultManager.check_angular_rate state
  | FaultManager.LOW_POWER => FaultManager.check_power_level state
  | FaultManager.SENSOR_ANOMALY => check_sensors pf
  | _ => false
  end.

(** ** Concrete platforms and states used in examples *)

Definition no_answer (_ : ADCSState) : bool := false.
Definition yes_answer (_ : ADCSState) : bool := true.

(** Sensors quiet, [power] watts, stubs answering [ok]. *)
Definition quiet_platform (power : float) (ok : ADCSState -> bool) : Platform :=
  mk_Platform array3_zero power 7 false ok ok ok ok.

Definition state_in (mode : ADCSMode) : StateMachine :=
  mk_StateMachine (mk_ADCSState mode 0 array3_zero (float_of_Z 5)) [].

(** Scenario 2: angular velocity [0.05, 0.05, 0.05] rad/s, 5.0 W, every stub
    answering yes; the clock reads 7. *)
Definition scenario2_platform : Platform :=
  mk_Platform
    (mk_array3 (float_lit 5 100) (float_lit 5 100) (float_lit 5 100))
    (float_of_Z 5) 7 false yes_answer yes_answer yes_answer yes_answer.

(** Scenario 4: power 3.9 W during NOMINAL_POINTING, no angular issue. *)
Definition scenario4_platform : Platform :=
  quiet_platform (float_lit 39 10) no_answer.

(** Scenario 5: later power 5.0 W, angular rate safe, power restored. *)
Definition scenario5_platform : Platform :=
  quiet_platform (float_of_Z 5) yes_answer.

(** ** The main loop *)

(** [main] constructs the machine and then calls [run_cycle] forever, with a
    [delay] whose body is empty between two calls.  A finite prefix of the
    loop is the fold over the platform's answers, cycle by cycle. *)
Definition main_loop (pfs : list Platform) (sm : StateMachine) : StateMachine :=
  fold_left (fun sm pf => run_cycle pf sm) pfs sm.

Definition main (is_corrupt is_state_safe : ADCSState -> ADCSMode -> bool)
           (record : ADCSState) (pfs : list Platform) : StateMachine :=
  main_loop pfs (StateMachine_ctor is_corrupt is_state_safe record).

(** Events of the cycles of a loop prefix, oldest first. *)
Fixpoint run_events (pfs : list Platform) (sm : StateMachine) : list Event :=
  match pfs with
  | [] => []
  | pf :: rest => cycle_events pf sm ++ run_events rest (run_cycle pf sm)
  end.

(** The classifier's answer on the readings a platform supplies; the
    classifier inspects the two sensor fields only. *)
Definition sensed_fault (pf : Platform) : FaultManager.FaultType :=
  FaultManager.check_faults pf
    (mk_ADCSState DETUMBLING 0 (read_imu pf) (read_power_system pf)).

(** Readings on which [handle_fault] does not overwrite the mode. *)
Definition mode_keeping (pf : Platform) : Prop :=
  sensed_fault pf <> FaultManager.HIGH_ANGULAR_RATE
  /\ sensed_fault pf <> FaultManager.LOW_POWER.

Definition is_watchdog_refresh (e : Event) : bool :=
  match e with E_watchdog_refresh => true | _ => false end.

Definition is_watchdog_initialize (e : Event) : bool :=
  match e with E_watchdog_initialize => true | _ => false end.

Definition is_reset (e : Event) : bool :=
  match e with
  | E_execute_software_reset | E_execute_hardware_reset => true
  | _ => false
  end.

Definition count_events (p : Event -> bool) (evs : list Event) : nat :=
  length (filter p evs).

(** What every record built by [save_persistent_state] looks like. *)
Definition saved_shape (r : NonVolatileMemory.ADCSState) : Prop :=
  (NonVolatileMemory.current_mode r = SUN_ACQUISITION
   \/ NonVolatileMemory.current_mode r = NOMINAL_POINTING
   \/ NonVolatileMemory.current_mode r = SAFE_MODE)
  /\ NonVolatileMemory.mode_entry_time r = 0
  /\ NonVolatileMemory.angular_velocity r = array3_zero
  /\ NonVolatileMemory.power_level r = float_zero
  /\ NonVolatileMemory.checksum r = float_zero.

(** A float converted to an integer, truncating toward zero (the C++
    conversion); NaN and infinities have no integer value and give 0 here. *)
Definition float_to_Z (f : float) : Z :=
  match f with
  | S754_finite s m e =>
      let v := match e with
               | Zneg k => Zpos m / 2 ^ Zpos k
               | _ => Zpos m * 2 ^ e
               end in
      if s then - v else v
  | _ => 0
  end.

(** [p] holds on the [fuel] integers from [n] on. *)
Fixpoint all_from (p : Z -> bool) (n : Z) (fuel : nat) : bool :=
  match fuel with
  | O => true
  | S k => p n && all_from p (n + 1) k
  end.

(** Sign flip of a reading. *)
Definition flip_sign (b : bool) (x : float) : float :=
  if b then SFopp x else x.

(** * Properties *)

(** ** Log bookkeeping *)

Lemma skipn_length_app {A} (l k : list A) : skipn (length l) (l ++ k) = k.
Proof. induction l as [|a l IH]; [reflexivity | exact IH]. Qed.

Lemma events_between_app (a b : StateMachine) (evs : list Event) :
  log b = log a ++ evs -> events_between a b = evs.
Proof. intros H. unfold events_between. rewrite H. apply skipn_length_app. Qed.

Lemma log_emit (e : Event) (sm : StateMachine) :
  log (emit e sm) = log sm ++ [e].
Proof. reflexivity. Qed.

Lemma nvm_writes_app (a b : list Event) :
  nvm_writes (a ++ b) = nvm_writes a ++ nvm_writes b.
Proof.
  induction a as [|e a IH]; [reflexivity|].
  destruct e; cbn; rewrite ?IH; reflexivity.
Qed.

(** Unfold the members down to [emit] and [with_state]. *)
Ltac unfold_members :=
  unfold run_cycle, refresh_watchdog, manage_faults, handle_fault,
    check_for_hardware_reset, check_for_software_reset, execute_mode_entry,
    execute_state_behavior, check_state_transition, execute_mode_exit,
    run_safe_mode, run_detumbling, run_sun_acquisition, run_nominal_pointing,
    save_persistent_state, NonVolatileMemory_write, update_sensor_data,
    evaluate_transition_conditions, FaultManager.check_faults in *.

(** Bring a log to the shape [old ++ explicit list]. *)
Ltac flatten_log :=
  cbn [log current_state emit with_state current_mode mode_entry_time
       angular_velocity power_level set_current_mode set_mode_entry_time
       set_angular_velocity set_power_level ADCSMode_eqb negb] in *;
  repeat rewrite <- app_assoc in *;
  cbn [app] in *.

Lemma Forall_not_In {A} (P : A -> Prop) (x : A) (l : list A) :
  Forall P l -> ~ P x -> ~ In x l.
Proof.
  intros HF HP Hin. rewrite Forall_forall in HF. exact (HP (HF x Hin)).
Qed.

Lemma strict_prefix_misses_last {A} (x : A) (body p q : list A) :
  ~ In x body -> body ++ [x] = p ++ q -> q <> [] -> ~ In x p.
Proof.
  intros Hbody Heq Hq Hin.
  destruct (exists_last Hq) as [q' [y Hy]]. subst q.
  rewrite app_assoc in Heq. apply app_inj_tail in Heq as [Hb _].
  apply Hbody. rewrite Hb. apply in_or_app. left. exact Hin.
Qed.

(** ** Float literals of the source *)

(** [0.1f] is the binary32 value 0x3DCCCCCD, [4.0f] is 0x40800000. *)
Example MAX_ANGULAR_RATE_bits :
  FaultManager.MAX_ANGULAR_RATE = S754_finite false 13421773 (-27).
Proof. reflexivity. Qed.

Example LOW_POWER_THRESHOLD_bits :
  FaultManager.LOW_POWER_THRESHOLD = S754_finite false 8388608 (-21).
Proof. reflexivity. Qed.

(** A NaN reading trips neither test: both comparisons are false. *)
Example nan_reading_is_no_fault (pf : Platform) (mode : ADCSMode) (t : Z) :
  FaultManager.check_faults pf
    (mk_ADCSState mode t (mk_array3 S754_nan S754_nan S754_nan) S754_nan)
  = if check_sensors pf then FaultManager.SENSOR_ANOMALY
    else FaultManager.NONE.
Proof. reflexivity. Qed.

(** ** Boot *)

(** C1: the constructor leaves the machine in SAFE_MODE when the record is
    corrupt or fails the safety predicate, and in DETUMBLING otherwise,
    whatever mode the record stores; the other fields of the live state are
    not touched, and the watchdog is initialised last. *)
Theorem boot_mode_safe_or_detumbling :
  forall (is_corrupt is_state_safe : ADCSState -> ADCSMode -> bool)
         (record : ADCSState),
    let sm := StateMachine_ctor is_corrupt is_state_safe record in
    let valid := negb (is_corrupt record (current_mode record)) in
    let safe := is_state_safe record (current_mode record) in
    current_mode (current_state sm)
    = (if valid && safe then DETUMBLING else SAFE_MODE)
    /\ current_state sm
       = set_current_mode (current_mode (current_state sm)) record
    /\ log sm = [E_nvm_read; E_watchdog_initialize].
Proof.
  intros is_corrupt is_state_safe record sm valid safe.
  subst sm valid safe. unfold StateMachine_ctor.
  cbn [emit current_state log app].
  destruct (is_corrupt record (current_mode record));
    [|destruct (is_state_safe record (current_mode record))];
    cbn; repeat split; reflexivity.
Qed.


(** ** FaultManager *)

Lemma check_faults_cases (pf : Platform) (state : ADCSState) :
  FaultManager.check_faults pf state = FaultManager.NONE
  \/ FaultManager.check_faults pf state = FaultManager.HIGH_ANGULAR_RATE
  \/ FaultManager.check_faults pf state = FaultManager.LOW_POWER
  \/ FaultManager.check_faults pf state = FaultManager.SENSOR_ANOMALY.
Proof.
  unfold FaultManager.check_faults.
  destruct (FaultManager.check_angular_rate state); [tauto|].
  destruct (FaultManager.check_power_level state); [tauto|].
  destruct (check_sensors pf); tauto.
Qed.

(** What [manage_faults] appends, by the classifier's answer. *)
Lemma manage_faults_log (pf : Platform) (sm : StateMachine) :
  log (manage_faults pf sm) =
  log sm ++
  match FaultManager.check_faults pf (current_state sm) with
  | FaultManager.NONE => []
  | FaultManager.HIGH_ANGULAR_RATE => [E_engage_magnetorquers]
  | FaultManager.LOW_POWER => [E_power_system_slowdown]
  | FaultManager.SENSOR_ANOMALY => [E_reset_sensor_array]
  | FaultManager.CRITICAL => [E_execute_hardware_reset]
  | FaultManager.SOFTWARE_RESET_REQUIRED => [E_execute_software_reset]
  end.
Proof.
  unfold manage_faults, handle_fault.
  destruct (FaultManager.check_faults pf (current_state sm));
    cbn; rewrite ?app_nil_r; reflexivity.
Qed.

(** C6: the classifier answers with the most severe fault whose condition
    holds (HIGH_ANGULAR_RATE before LOW_POWER before SENSOR_ANOMALY), and
    with NONE only when no condition holds; on angular velocity
    [0.2, 0, 0] rad/s with power 3.5 W both the rate and the power condition
    hold and the answer is HIGH_ANGULAR_RATE. *)
Theorem check_faults_first_match_by_severity :
  forall (pf : Platform) (state : ADCSState) (mode : ADCSMode) (t : Z),
    let r := FaultManager.check_faults pf state in
    let s := mk_ADCSState mode t
               (mk_array3 (float_lit 2 10) float_zero float_zero)
               (float_lit 35 10) in
    (r = FaultManager.NONE \/ fault_condition pf state r = true)
    /\ (forall f, fault_condition pf state f = true ->
                  (spec_severity f <= spec_severity r)%nat)
    /\ FaultManager.check_angular_rate s = true
    /\ FaultManager.check_power_level s = true
    /\ FaultManager.check_faults pf s = FaultManager.HIGH_ANGULAR_RATE.
Proof.
  intros pf state mode t r s. subst r.
  split; [|split].
  - unfold FaultManager.check_faults.
    destruct (FaultManager.check_angular_rate state) eqn:Ha; [right; exact Ha|].
    destruct (FaultManager.check_power_level state) eqn:Hp; [right; exact Hp|].
    destruct (check_sensors pf) eqn:Hs; [right; exact Hs | left; reflexivity].
  - intros f Hf. unfold FaultManager.check_faults.
    destruct f; cbn in Hf; try discriminate; rewrite ?Hf; cbn.
    + lia.
    + destruct (FaultManager.check_angular_rate state); cbn; lia.
    + destruct (FaultManager.check_angular_rate state); cbn; [lia|].
      destruct (FaultManager.check_power_level state); cbn; lia.
  - repeat split; vm_compute; reflexivity.
Qed.

(** ** One control cycle, step by step *)

Lemma update_sensor_data_log (pf : Platform) (sm : StateMachine) :
  log (update_sensor_data pf sm) = log sm ++ [E_read_sensors].
Proof. reflexivity. Qed.

Lemma update_sensor_data_mode (pf : Platform) (sm : StateMachine) :
  current_mode (current_state (update_sensor_data pf sm))
  = current_mode (current_state sm).
Proof. reflexivity. Qed.

Lemma execute_mode_entry_state (pf : Platform) (mode : ADCSMode)
      (sm : StateMachine) :
  current_state (execute_mode_entry pf mode sm) = current_state sm.
Proof.
  unfold_members. destruct mode; try reflexivity.
  destruct (fault_recovery_complete pf _); reflexivity.
Qed.

Lemma execute_mode_entry_log (pf : Platform) (mode : ADCSMode)
      (sm : StateMachine) :
  log (execute_mode_entry pf mode sm) =
  log sm ++
  match mode with
  | SAFE_MODE =>
      [E_run_mode SAFE_MODE;
       E_nvm_write
         (NonVolatileMemory.mk_ADCSState
            (current_mode (current_state sm)) 0 array3_zero float_zero
            (float_of_Z (mode_entry_time (current_state sm))) float_zero)]
  | FAULT_RECOVERY => []
  | m => [E_run_mode m]
  end.
Proof.
  unfold_members. destruct mode; try reflexivity.
  - destruct (fault_recovery_complete pf _); flatten_log; reflexivity.
  - symmetry; apply app_nil_r.
Qed.

(** The candidate differs from the current mode only on the two forward
    edges DETUMBLING -> SUN_ACQUISITION -> NOMINAL_POINTING. *)
Lemma evaluate_transition_conditions_edges (pf : Platform)
      (sm : StateMachine) :
  evaluate_transition_conditions pf sm <> current_mode (current_state sm) ->
  (current_mode (current_state sm) = DETUMBLING
   /\ evaluate_transition_conditions pf sm = SUN_ACQUISITION)
  \/ (current_mode (current_state sm) = SUN_ACQUISITION
      /\ evaluate_transition_conditions pf sm = NOMINAL_POINTING).
Proof.
  unfold evaluate_transition_conditions.
  destruct (current_mode (current_state sm));
    repeat match goal with |- context [if ?b then _ else _] => destruct b end;
    intros H; try (exfalso; apply H; reflexivity); auto.
Qed.

Lemma ADCSMode_eqb_eq (a b : ADCSMode) : ADCSMode_eqb a b = true <-> a = b.
Proof. destruct a, b; cbn; split; intros H; try reflexivity; discriminate. Qed.

Lemma check_state_transition_same (pf : Platform) (sm : StateMachine) :
  evaluate_transition_conditions pf sm = current_mode (current_state sm) ->
  check_state_transition pf sm = sm.
Proof.
  intros H. unfold check_state_transition.
  apply ADCSMode_eqb_eq in H. rewrite H. reflexivity.
Qed.

Lemma check_state_transition_change (pf : Platform) (sm : StateMachine) :
  let cur := current_mode (current_state sm) in
  let cand := evaluate_transition_conditions pf sm in
  let now := wrap_u16 (get_current_time pf) in
  cand <> cur ->
  current_state (check_state_transition pf sm)
  = set_mode_entry_time now (set_current_mode cand (current_state sm))
  /\ log (check_state_transition pf sm)
     = log sm ++
       [E_mode_exit cur; E_run_mode cand;
        E_nvm_write
          (NonVolatileMemory.mk_ADCSState cand 0 array3_zero float_zero
             (float_of_Z now) float_zero)].
Proof.
  intros cur cand now Hne.
  assert (Hb : ADCSMode_eqb cand cur = false).
  { destruct (ADCSMode_eqb cand cur) eqn:E; [|reflexivity].
    apply ADCSMode_eqb_eq in E. contradiction. }
  destruct (evaluate_transition_conditions_edges pf sm Hne) as [[Hc Hn]|[Hc Hn]];
    unfold check_state_transition; fold cand cur; rewrite Hb;
    subst cand cur; rewrite Hn, Hc;
    unfold_members; flatten_log; split; reflexivity.
Qed.

Lemma check_state_transition_log (pf : Platform) (sm : StateMachine) :
  exists evs,
    log (check_state_transition pf sm) = log sm ++ evs
    /\ Forall transition_event evs.
Proof.
  destruct (ADCSMode_eqb (evaluate_transition_conditions pf sm)
                         (current_mode (current_state sm))) eqn:E.
  - apply ADCSMode_eqb_eq in E.
    rewrite (check_state_transition_same pf sm E).
    exists []. split; [symmetry; apply app_nil_r | constructor].
  - assert (Hne : evaluate_transition_conditions pf sm
                  <> current_mode (current_state sm)).
    { intros H. apply ADCSMode_eqb_eq in H. congruence. }
    destruct (check_state_transition_change pf sm Hne) as [_ Hl].
    eexists. split; [exact Hl|].
    repeat constructor.
Qed.

Lemma behavior_events_of_mode (pf : Platform) (mode : ADCSMode)
      (sm : StateMachine) :
  Forall behavior_event (events_between sm (execute_mode_entry pf mode sm)).
Proof.
  rewrite (events_between_app _ _ _ (execute_mode_entry_log pf mode sm)).
  destruct mode; repeat constructor.
Qed.

Lemma fault_events_of_manage_faults (pf : Platform) (sm : StateMachine) :
  Forall fault_event (events_between sm (manage_faults pf sm)).
Proof.
  rewrite (events_between_app _ _ _ (manage_faults_log pf sm)).
  destruct (FaultManager.check_faults pf (current_state sm));
    repeat constructor.
Qed.

(** The events of a cycle, split at the boundaries of its steps. *)
Lemma cycle_events_split (pf : Platform) (sm : StateMachine) :
  let s1 := update_sensor_data pf sm in
  let s2 := check_state_transition pf s1 in
  let s3 := execute_mode_entry pf (current_mode (current_state s2)) s2 in
  let s4 := check_for_hardware_reset (check_for_software_reset s3) in
  let s5 := manage_faults pf s4 in
  cycle_events pf sm
  = [E_read_sensors] ++ events_between s1 s2 ++ events_between s2 s3
    ++ [E_check_for_software_reset; E_check_for_hardware_reset]
    ++ events_between s4 s5 ++ [E_watchdog_refresh]
  /\ events_between sm s1 = [E_read_sensors]
  /\ events_between s3 s4
     = [E_check_for_software_reset; E_check_for_hardware_reset].
Proof.
  intros s1 s2 s3 s4 s5.
  destruct (check_state_transition_log pf s1) as [t2 [L2 _]]. fold s2 in L2.
  pose proof (events_between_app _ _ _ L2) as H2.
  pose proof (execute_mode_entry_log pf (current_mode (current_state s2)) s2)
    as L3. fold s3 in L3.
  pose proof (events_between_app _ _ _ L3) as H3.
  assert (L4 : log s4 = log s3
               ++ [E_check_for_software_reset; E_check_for_hardware_reset]).
  { subst s4. unfold check_for_hardware_reset, check_for_software_reset.
    rewrite !log_emit, <- app_assoc. reflexivity. }
  pose proof (manage_faults_log pf s4) as L5. fold s5 in L5.
  pose proof (events_between_app _ _ _ L5) as H5.
  split; [|split].
  - unfold cycle_events. apply events_between_app.
    change (run_cycle pf sm) with (refresh_watchdog s5).
    unfold refresh_watchdog. rewrite log_emit.
    rewrite H2, H3, H5, L5, L4, L3, L2.
    unfold s1 at 1. rewrite update_sensor_data_log.
    repeat rewrite <- app_assoc. reflexivity.
  - apply events_between_app, update_sensor_data_log.
  - apply events_between_app, L4.
Qed.

Lemma events_between_refl (sm : StateMachine) : events_between sm sm = [].
Proof. unfold events_between. apply skipn_all. Qed.

Lemma nvm_writes_fault_events (evs : list Event) :
  Forall fault_event evs -> nvm_writes evs = [].
Proof.
  induction 1 as [|e evs He _ IH]; [reflexivity|].
  destruct e; cbn in *; try contradiction; exact IH.
Qed.

(** Only the transition step and the mode behaviour reach the store. *)
Lemma cycle_nvm_writes (pf : Platform) (sm : StateMachine) :
  let s1 := update_sensor_data pf sm in
  let s2 := check_state_transition pf s1 in
  let s3 := execute_mode_entry pf (current_mode (current_state s2)) s2 in
  nvm_writes (cycle_events pf sm)
  = nvm_writes (events_between s1 s2) ++ nvm_writes (events_between s2 s3).
Proof.
  intros s1 s2 s3.
  destruct (cycle_events_split pf sm) as [H _]. cbv zeta in H.
  fold s1 s2 s3 in H. rewrite H.
  rewrite !nvm_writes_app.
  rewrite (nvm_writes_fault_events _ (fault_events_of_manage_faults pf _)).
  cbn. rewrite !app_nil_r. reflexivity.
Qed.

(** Writes of a cycle that takes a transition: the one of the transition. *)
Lemma transition_cycle_writes (pf : Platform) (sm : StateMachine) :
  let s1 := update_sensor_data pf sm in
  let cur := current_mode (current_state s1) in
  let cand := evaluate_transition_conditions pf s1 in
  let now := wrap_u16 (get_current_time pf) in
  cand <> cur ->
  events_between s1 (check_state_transition pf s1)
  = [E_mode_exit cur; E_run_mode cand;
     E_nvm_write (NonVolatileMemory.mk_ADCSState cand 0 array3_zero float_zero
                    (float_of_Z now) float_zero)]
  /\ nvm_writes (cycle_events pf sm)
     = [NonVolatileMemory.mk_ADCSState cand 0 array3_zero float_zero
          (float_of_Z now) float_zero].
Proof.
  intros s1 cur cand now Hne.
  destruct (check_state_transition_change pf s1 Hne) as [Hs Hl].
  fold cur cand now in Hs, Hl.
  pose proof (events_between_app _ _ _ Hl) as Hev.
  split; [exact Hev|].
  rewrite cycle_nvm_writes. fold s1. rewrite Hev.
  rewrite (events_between_app _ _ _ (execute_mode_entry_log pf _ _)).
  rewrite Hs. cbn [current_mode set_mode_entry_time set_current_mode].
  destruct (evaluate_transition_conditions_edges pf s1 Hne) as [[_ Hc]|[_ Hc]];
    fold cand in Hc; rewrite Hc; reflexivity.
Qed.

(** C8: the events of one [run_cycle] are, in this order, those of the
    sensor refresh, of the transition evaluation, of the mode behaviour, of
    the two reset-escalation checks, of fault evaluation and handling, and
    last the watchdog refresh.  Fault-handling actions therefore come after
    the cycle's mode behaviour, and no execution that stops before the end
    of the cycle has refreshed the watchdog. *)
Theorem run_cycle_step_order :
  forall (pf : Platform) (sm : StateMachine),
    let s1 := update_sensor_data pf sm in
    let s2 := check_state_transition pf s1 in
    let s3 := execute_mode_entry pf (current_mode (current_state s2)) s2 in
    let s4 := check_for_hardware_reset (check_for_software_reset s3) in
    let s5 := manage_faults pf s4 in
    cycle_events pf sm
    = events_between sm s1 ++ events_between s1 s2 ++ events_between s2 s3
      ++ events_between s3 s4 ++ events_between s4 s5 ++ [E_watchdog_refresh]
    /\ events_between sm s1 = [E_read_sensors]
    /\ Forall transition_event (events_between s1 s2)
    /\ Forall behavior_event (events_between s2 s3)
    /\ events_between s3 s4
       = [E_check_for_software_reset; E_check_for_hardware_reset]
    /\ Forall fault_event (events_between s4 s5)
    /\ (forall p q, cycle_events pf sm = p ++ q -> q <> [] ->
                    ~ In E_watchdog_refresh p).
Proof.
  intros pf sm s1 s2 s3 s4 s5.
  destruct (cycle_events_split pf sm) as [Hall [H1 H4]].
  cbv zeta in Hall, H1, H4. fold s1 in Hall, H1, H4.
  fold s2 in Hall, H4. fold s3 in Hall, H4. fold s4 in Hall, H4.
  fold s5 in Hall.
  assert (F2 : Forall transition_event (events_between s1 s2)).
  { destruct (check_state_transition_log pf s1) as [t2 [L2 F2]].
    fold s2 in L2. rewrite (events_between_app _ _ _ L2). exact F2. }
  pose proof (behavior_events_of_mode pf (current_mode (current_state s2)) s2)
    as F3. fold s3 in F3.
  pose proof (fault_events_of_manage_faults pf s4) as F5. fold s5 in F5.
  repeat split; try assumption.
  - rewrite H1, H4. exact Hall.
  - intros p q Hpq Hq.
    rewrite Hall in Hpq. rewrite !app_assoc in Hpq.
    eapply strict_prefix_misses_last; [|exact Hpq|exact Hq].
    intros Hin.
    repeat (apply in_app_or in Hin; destruct Hin as [Hin|Hin]).
    + destruct Hin as [E|[]]; discriminate.
    + revert Hin. apply (Forall_not_In transition_event); [exact F2|]. exact id.
    + revert Hin. apply (Forall_not_In behavior_event); [exact F3|]. exact id.
    + destruct Hin as [E|[E|[]]]; discriminate.
    + revert Hin. apply (Forall_not_In fault_event); [exact F5|]. exact id.
Qed.

(** Where an event of a cycle can come from. *)
Lemma cycle_event_origin (pf : Platform) (sm : StateMachine) (e : Event) :
  In e (cycle_events pf sm) ->
  e = E_read_sensors \/ transition_event e
  \/ e = E_check_for_software_reset \/ e = E_check_for_hardware_reset
  \/ e = E_watchdog_refresh
  \/ exists s, In e (events_between s (manage_faults pf s)).
Proof.
  intros Hin.
  destruct (cycle_events_split pf sm) as [Hall _]. cbv zeta in Hall.
  rewrite Hall in Hin. clear Hall.
  destruct (check_state_transition_log pf (update_sensor_data pf sm))
    as [t2 [L2 F2]].
  rewrite (events_between_app _ _ _ L2) in Hin.
  rewrite (events_between_app _ _ _ (execute_mode_entry_log pf _ _)) in Hin.
  repeat (apply in_app_or in Hin; destruct Hin as [Hin|Hin]).
  - destruct Hin as [E|[]]. left. congruence.
  - right; left. rewrite Forall_forall in F2. exact (F2 e Hin).
  - right; left.
    destruct (current_mode _); cbn in Hin;
      repeat (destruct Hin as [Hin|Hin]; [subst e; exact I|]);
      contradiction.
  - destruct Hin as [E|[E|[]]]; subst e; tauto.
  - do 5 right. eexists. exact Hin.
  - destruct Hin as [E|[]]. subst e. tauto.
Qed.

(** C10: the classifier answers NONE, HIGH_ANGULAR_RATE, LOW_POWER or
    SENSOR_ANOMALY, never SOFTWARE_RESET_REQUIRED or CRITICAL; so neither
    [manage_faults] nor a whole control cycle ever calls
    [execute_software_reset] or [execute_hardware_reset]. *)
Theorem check_faults_never_requests_reset :
  forall (pf : Platform) (sm : StateMachine),
    let r := FaultManager.check_faults pf (current_state sm) in
    (r = FaultManager.NONE \/ r = FaultManager.HIGH_ANGULAR_RATE
     \/ r = FaultManager.LOW_POWER \/ r = FaultManager.SENSOR_ANOMALY)
    /\ r <> FaultManager.SOFTWARE_RESET_REQUIRED
    /\ r <> FaultManager.CRITICAL
    /\ ~ In E_execute_software_reset (events_between sm (manage_faults pf sm))
    /\ ~ In E_execute_hardware_reset (events_between sm (manage_faults pf sm))
    /\ ~ In E_execute_software_reset (cycle_events pf sm)
    /\ ~ In E_execute_hardware_reset (cycle_events pf sm).
Proof.
  intros pf sm r. subst r.
  assert (Hmf : forall s,
             ~ In E_execute_software_reset
                  (events_between s (manage_faults pf s))
             /\ ~ In E_execute_hardware_reset
                     (events_between s (manage_faults pf s))).
  { intros s.
    rewrite (events_between_app _ _ _ (manage_faults_log pf s)).
    destruct (check_faults_cases pf (current_state s)) as [H|[H|[H|H]]];
      rewrite H; cbn; intuition discriminate. }
  pose proof (check_faults_cases pf (current_state sm)) as Hc.
  split; [exact Hc|].
  split; [destruct Hc as [H|[H|[H|H]]]; rewrite H; discriminate|].
  split; [destruct Hc as [H|[H|[H|H]]]; rewrite H; discriminate|].
  split; [apply Hmf|]. split; [apply Hmf|].
  split; intros Hin; apply cycle_event_origin in Hin;
    destruct Hin as [H|[H|[H|[H|[H|[s H]]]]]];
    try discriminate; try contradiction; revert H; apply Hmf.
Qed.

(** ** Writes to the store *)



(** C9: on a transition [save_persistent_state] hands one record to the
    store, in one call; the record names the new mode and has the new entry
    time as its timestamp, and its [mode_entry_time], [angular_velocity],
    [power_level] and [checksum] members are zero whatever the live state
    holds: no field of the live state other than the mode reaches the
    members of the same name, and no checksum is computed.  After the
    transition out of DETUMBLING of scenario 2 (readings 0.05 rad/s on each
    axis and 5.0 W, clock 7) the record differs from the live state in entry
    time, angular velocity and power level. *)
Theorem transition_record_leaves_fields_unset :
  forall (pf : Platform) (sm : StateMachine),
    let s1 := update_sensor_data pf sm in
    let live := current_state (check_state_transition pf s1) in
    let sm0 := state_in DETUMBLING in
    let live0 :=
      current_state
        (check_state_transition scenario2_platform
           (update_sensor_data scenario2_platform sm0)) in
    (evaluate_transition_conditions pf s1 <> current_mode (current_state s1) ->
     exists r,
       nvm_writes (cycle_events pf sm) = [r]
       /\ NonVolatileMemory.current_mode r = current_mode live
       /\ NonVolatileMemory.timestamp r = float_of_Z (mode_entry_time live)
       /\ NonVolatileMemory.mode_entry_time r = 0
       /\ NonVolatileMemory.angular_velocity r = array3_zero
       /\ NonVolatileMemory.power_level r = float_zero
       /\ NonVolatileMemory.checksum r = float_zero
       /\ mode_entry_time live = wrap_u16 (get_current_time pf)
       /\ angular_velocity live = read_imu pf
       /\ power_level live = read_power_system pf)
    /\ exists r0,
        nvm_writes (cycle_events scenario2_platform sm0) = [r0]
        /\ current_mode live0 = SUN_ACQUISITION
        /\ NonVolatileMemory.mode_entry_time r0 = 0
        /\ mode_entry_time live0 = 7
        /\ NonVolatileMemory.angular_velocity r0 <> angular_velocity live0
        /\ NonVolatileMemory.power_level r0 <> power_level live0
        /\ NonVolatileMemory.checksum r0 = float_zero
        /\ ~ carries_state r0 live0.
Proof.
  intros pf sm s1 live sm0 live0.
  split.
  - intros Hne.
    destruct (check_state_transition_change pf s1 Hne) as [Hs _].
    destruct (transition_cycle_writes pf sm Hne) as [_ Hw].
    fold s1 in Hs, Hw. fold live in Hs.
    eexists. split; [exact Hw|].
    cbn [NonVolatileMemory.current_mode NonVolatileMemory.timestamp
         NonVolatileMemory.mode_entry_time NonVolatileMemory.angular_velocity
         NonVolatileMemory.power_level NonVolatileMemory.checksum].
    rewrite Hs.
    cbn [current_mode mode_entry_time angular_velocity power_level
         set_mode_entry_time set_current_mode].
    repeat (split; [reflexivity|]). reflexivity.
  - exists (NonVolatileMemory.mk_ADCSState SUN_ACQUISITION 0 array3_zero
              float_zero (float_of_Z 7) float_zero).
    split; [vm_compute; reflexivity|].
    split; [reflexivity|]. split; [reflexivity|]. split; [reflexivity|].
    split; [vm_compute; discriminate|].
    split; [vm_compute; discriminate|].
    split; [reflexivity|].
    intros [_ [Ht _]]. vm_compute in Ht. discriminate Ht.
Qed.

(** ** The mode to resume *)

(** C3: in SAFE_MODE and in FAULT_RECOVERY [evaluate_transition_conditions]
    answers the current mode, whatever the platform reports: the mode it
    calls [previous_operational_mode] is read from [current_mode] on entry to
    the function.  In scenario 4 followed by scenario 5 (power back to 5.0 W,
    power reported restored) the machine entered SAFE_MODE from
    NOMINAL_POINTING and stays in SAFE_MODE. *)
Theorem resume_target_is_current_mode :
  forall (pf : Platform) (s : ADCSState) (l : list Event),
    let after4 := run_cycle scenario4_platform (state_in NOMINAL_POINTING) in
    let after5 := run_cycle scenario5_platform after4 in
    evaluate_transition_conditions pf
      (mk_StateMachine (set_current_mode SAFE_MODE s) l) = SAFE_MODE
    /\ evaluate_transition_conditions pf
         (mk_StateMachine (set_current_mode FAULT_RECOVERY s) l)
       = FAULT_RECOVERY
    /\ current_mode (current_state after4) = SAFE_MODE
    /\ power_restored scenario5_platform
         (current_state (update_sensor_data scenario5_platform after4)) = true
    /\ evaluate_transition_conditions scenario5_platform
         (update_sensor_data scenario5_platform after4) = SAFE_MODE
    /\ current_mode (current_state after5) = SAFE_MODE.
Proof.
  intros pf s l after4 after5.
  split; [|split].
  - unfold evaluate_transition_conditions. cbn.
    destruct (power_restored pf _); reflexivity.
  - unfold evaluate_transition_conditions. cbn.
    destruct (fault_recovery_complete pf _); reflexivity.
  - repeat split; vm_compute; reflexivity.
Qed.

(** C4: when [handle_fault] overwrites the mode (LOW_POWER forces SAFE_MODE,
    HIGH_ANGULAR_RATE forces DETUMBLING) the machine that results is the same
    whatever the mode was before: the previous mode is held in a local of
    [handle_fault] only and is not part of the state that remains.  After
    scenario 4 the live state is the same from NOMINAL_POINTING as from
    SUN_ACQUISITION. *)
Theorem handle_fault_forgets_previous_mode :
  forall (sm : StateMachine) (m1 m2 : ADCSMode),
    handle_fault FaultManager.LOW_POWER (with_state (set_current_mode m1) sm)
    = handle_fault FaultManager.LOW_POWER (with_state (set_current_mode m2) sm)
    /\ handle_fault FaultManager.HIGH_ANGULAR_RATE
         (with_state (set_current_mode m1) sm)
       = handle_fault FaultManager.HIGH_ANGULAR_RATE
           (with_state (set_current_mode m2) sm)
    /\ current_mode
         (current_state
            (handle_fault FaultManager.LOW_POWER
               (with_state (set_current_mode m1) sm))) = SAFE_MODE
    /\ current_state (run_cycle scenario4_platform (state_in NOMINAL_POINTING))
       = current_state (run_cycle scenario4_platform (state_in SUN_ACQUISITION)).
Proof.
  intros sm m1 m2. repeat split.
Qed.

(** ** Reset escalation *)

Lemma iter_handle_fault_log (f : FaultManager.FaultType) (e : Event)
      (n : nat) (sm : StateMachine) :
  (forall s, handle_fault f s = emit e s) ->
  current_state (Nat.iter n (handle_fault f) sm) = current_state sm
  /\ log (Nat.iter n (handle_fault f) sm) = log sm ++ repeat e n.
Proof.
  intros Hf. induction n as [|n [IHs IHl]].
  - cbn. rewrite app_nil_r. split; reflexivity.
  - rewrite Nat.iter_succ, Hf. cbn [emit current_state log].
    split; [exact IHs|].
    rewrite IHl, <- app_assoc, <- repeat_cons. reflexivity.
Qed.

(** C7: [handle_fault] answers every SOFTWARE_RESET_REQUIRED fault with one
    more [execute_software_reset] and every SENSOR_ANOMALY fault with one
    more [reset_sensor_array], however many came before: after [n]
    consecutive occurrences the live state is unchanged, [n] software-level
    resets were made and no hardware reset.  The two escalation checks of
    the cycle change nothing either. *)
Theorem software_resets_do_not_escalate :
  forall (n : nat) (sm : StateMachine),
    let sw := Nat.iter n (handle_fault FaultManager.SOFTWARE_RESET_REQUIRED) sm in
    let sa := Nat.iter n (handle_fault FaultManager.SENSOR_ANOMALY) sm in
    current_state sw = current_state sm
    /\ events_between sm sw = repeat E_execute_software_reset n
    /\ ~ In E_execute_hardware_reset (events_between sm sw)
    /\ current_state sa = current_state sm
    /\ events_between sm sa = repeat E_reset_sensor_array n
    /\ ~ In E_execute_hardware_reset (events_between sm sa)
    /\ current_state (check_for_hardware_reset (check_for_software_reset sm))
       = current_state sm
    /\ events_between sm (Nat.iter 4
         (handle_fault FaultManager.SOFTWARE_RESET_REQUIRED) sm)
       = [E_execute_software_reset; E_execute_software_reset;
          E_execute_software_reset; E_execute_software_reset].
Proof.
  intros n sm sw sa.
  destruct (iter_handle_fault_log FaultManager.SOFTWARE_RESET_REQUIRED
              E_execute_software_reset n sm (fun s => eq_refl)) as [Hs Hl].
  destruct (iter_handle_fault_log FaultManager.SENSOR_ANOMALY
              E_reset_sensor_array n sm (fun s => eq_refl)) as [Hs' Hl'].
  destruct (iter_handle_fault_log FaultManager.SOFTWARE_RESET_REQUIRED
              E_execute_software_reset 4 sm (fun s => eq_refl)) as [_ Hl4].
  fold sw in Hs, Hl. fold sa in Hs', Hl'.
  apply events_between_app in Hl, Hl', Hl4.
  repeat split; try assumption.
  - rewrite Hl. intros Hin. apply repeat_spec in Hin. discriminate.
  - rewrite Hl'. intros Hin. apply repeat_spec in Hin. discriminate.
Qed.


(** * Further properties of the code *)

(** ** The live state after a cycle *)

Lemma check_faults_reads_sensors (pf : Platform) (s : ADCSState) :
  angular_velocity s = read_imu pf ->
  power_level s = read_power_system pf ->
  FaultManager.check_faults pf s = sensed_fault pf.
Proof.
  intros Hv Hp.
  unfold sensed_fault, FaultManager.check_faults,
    FaultManager.check_angular_rate, FaultManager.check_power_level.
  cbn [angular_velocity power_level]. rewrite Hv, Hp. reflexivity.
Qed.

Lemma check_state_transition_state (pf : Platform) (sm : StateMachine) :
  current_state (check_state_transition pf sm)
  = if ADCSMode_eqb (evaluate_transition_conditions pf sm)
                    (current_mode (current_state sm))
    then current_state sm
    else set_mode_entry_time (wrap_u16 (get_current_time pf))
           (set_current_mode (evaluate_transition_conditions pf sm)
              (current_state sm)).
Proof.
  destruct (ADCSMode_eqb (evaluate_transition_conditions pf sm)
                         (current_mode (current_state sm))) eqn:E.
  - apply ADCSMode_eqb_eq in E.
    rewrite (check_state_transition_same pf sm E). reflexivity.
  - assert (Hne : evaluate_transition_conditions pf sm
                  <> current_mode (current_state sm)).
    { intros H. apply ADCSMode_eqb_eq in H. congruence. }
    exact (proj1 (check_state_transition_change pf sm Hne)).
Qed.

(** The live state a cycle leaves: the state after the transition step,
    with the mode overwritten when the classifier reports a high rate or low
    power on this cycle's readings. *)
Lemma run_cycle_state (pf : Platform) (sm : StateMachine) :
  let s2 := current_state
              (check_state_transition pf (update_sensor_data pf sm)) in
  angular_velocity s2 = read_imu pf
  /\ power_level s2 = read_power_system pf
  /\ current_state (run_cycle pf sm)
     = match sensed_fault pf with
       | FaultManager.HIGH_ANGULAR_RATE => set_current_mode DETUMBLING s2
       | FaultManager.LOW_POWER => set_current_mode SAFE_MODE s2
       | _ => s2
       end.
Proof.
  intros s2.
  assert (Hv : angular_velocity s2 = read_imu pf
               /\ power_level s2 = read_power_system pf).
  { subst s2. rewrite check_state_transition_state.
    destruct (ADCSMode_eqb _ _); split; reflexivity. }
  destruct Hv as [Hv Hp]. split; [exact Hv|]. split; [exact Hp|].
  unfold run_cycle, refresh_watchdog, manage_faults,
    check_for_hardware_reset, check_for_software_reset.
  cbn [emit current_state].
  rewrite execute_mode_entry_state. fold s2.
  rewrite (check_faults_reads_sensors pf s2 Hv Hp).
  destruct (sensed_fault pf) eqn:F;
    unfold handle_fault; cbn [emit with_state current_state];
    rewrite execute_mode_entry_state; reflexivity.
Qed.

Lemma check_state_transition_mode (pf : Platform) (sm : StateMachine) :
  current_mode (current_state (check_state_transition pf sm))
  = evaluate_transition_conditions pf sm.
Proof.
  rewrite check_state_transition_state.
  destruct (ADCSMode_eqb _ _) eqn:E; [|reflexivity].
  apply ADCSMode_eqb_eq in E. symmetry. exact E.
Qed.

(** X1: the mode a cycle ends in is decided by this cycle's readings first:
    DETUMBLING on a high angular rate, SAFE_MODE on low power (and no high
    rate), and otherwise the candidate of the transition table. *)
Theorem run_cycle_final_mode :
  forall (pf : Platform) (sm : StateMachine),
    current_mode (current_state (run_cycle pf sm))
    = match sensed_fault pf with
      | FaultManager.HIGH_ANGULAR_RATE => DETUMBLING
      | FaultManager.LOW_POWER => SAFE_MODE
      | _ => evaluate_transition_conditions pf (update_sensor_data pf sm)
      end.
Proof.
  intros pf sm.
  destruct (run_cycle_state pf sm) as [_ [_ H]]. cbv zeta in H. rewrite H.
  pose proof (check_state_transition_mode pf (update_sensor_data pf sm))
    as Hm.
  destruct (sensed_fault pf); try exact Hm; reflexivity.
Qed.

(** X2: after a cycle the live angular velocity and power level are the
    readings of that cycle, whatever mode change the cycle made and whatever
    the live state held before. *)
Theorem run_cycle_sensor_fields_are_fresh :
  forall (pf : Platform) (sm : StateMachine),
    angular_velocity (current_state (run_cycle pf sm)) = read_imu pf
    /\ power_level (current_state (run_cycle pf sm)) = read_power_system pf
    /\ FaultManager.check_faults pf (current_state (run_cycle pf sm))
       = sensed_fault pf.
Proof.
  intros pf sm.
  destruct (run_cycle_state pf sm) as [Hv [Hp H]]. cbv zeta in H, Hv, Hp.
  assert (Hv' : angular_velocity (current_state (run_cycle pf sm))
                = read_imu pf)
    by (rewrite H; destruct (sensed_fault pf); exact Hv).
  assert (Hp' : power_level (current_state (run_cycle pf sm))
                = read_power_system pf)
    by (rewrite H; destruct (sensed_fault pf); exact Hp).
  repeat split; try assumption.
  apply check_faults_reads_sensors; assumption.
Qed.

Lemma wrap_u16_range (t : Z) : 0 <= wrap_u16 t < 65536.
Proof. unfold wrap_u16. apply Z.mod_pos_bound. reflexivity. Qed.

(** X3: [mode_entry_time] is rewritten exactly when [check_state_transition]
    takes a transition, with the 16-bit clock value; otherwise a cycle
    leaves it as it was, also when the cycle's fault handling changes the
    mode. *)
Theorem run_cycle_entry_time :
  forall (pf : Platform) (sm : StateMachine),
    let s1 := update_sensor_data pf sm in
    let taken := negb (ADCSMode_eqb (evaluate_transition_conditions pf s1)
                                    (current_mode (current_state s1))) in
    mode_entry_time (current_state (run_cycle pf sm))
    = (if taken then wrap_u16 (get_current_time pf)
       else mode_entry_time (current_state sm))
    /\ (taken = true ->
        0 <= mode_entry_time (current_state (run_cycle pf sm)) < 65536).
Proof.
  intros pf sm s1 taken.
  destruct (run_cycle_state pf sm) as [_ [_ H]]. cbv zeta in H.
  fold s1 in H.
  assert (E : mode_entry_time (current_state (run_cycle pf sm))
              = if taken then wrap_u16 (get_current_time pf)
                else mode_entry_time (current_state sm)).
  { rewrite H, check_state_transition_state. subst taken.
    destruct (sensed_fault pf);
      destruct (ADCSMode_eqb _ _); reflexivity. }
  split; [exact E|].
  intros Ht. rewrite E, Ht. apply wrap_u16_range.
Qed.

(** ** Exit actions and the modes a cycle can reach *)

Lemma no_mode_exit_in_behavior (m : ADCSMode) (evs : list Event) :
  Forall behavior_event evs -> ~ In (E_mode_exit m) evs.
Proof. intros F. apply (Forall_not_In behavior_event); [exact F | exact id]. Qed.

Lemma no_mode_exit_in_fault (m : ADCSMode) (evs : list Event) :
  Forall fault_event evs -> ~ In (E_mode_exit m) evs.
Proof. intros F. apply (Forall_not_In fault_event); [exact F | exact id]. Qed.

(** X4: the exit action of a mode runs in a cycle exactly when
    [check_state_transition] takes a transition, and then for the mode being
    left; a mode change made by fault handling runs no exit action. *)
Theorem mode_exit_only_on_transition :
  forall (pf : Platform) (sm : StateMachine) (m : ADCSMode),
    let s1 := update_sensor_data pf sm in
    In (E_mode_exit m) (cycle_events pf sm)
    <-> (evaluate_transition_conditions pf s1
         <> current_mode (current_state s1)
         /\ m = current_mode (current_state sm)).
Proof.
  intros pf sm m s1.
  destruct (cycle_events_split pf sm) as [Hall _]. cbv zeta in Hall.
  fold s1 in Hall. rewrite Hall. clear Hall.
  pose proof (behavior_events_of_mode pf
                (current_mode (current_state (check_state_transition pf s1)))
                (check_state_transition pf s1)) as F3.
  pose proof (fault_events_of_manage_faults pf
                (check_for_hardware_reset
                   (check_for_software_reset
                      (execute_mode_entry pf
                         (current_mode
                            (current_state (check_state_transition pf s1)))
                         (check_state_transition pf s1))))) as F5.
  destruct (ADCSMode_eqb (evaluate_transition_conditions pf s1)
                         (current_mode (current_state s1))) eqn:E.
  - apply ADCSMode_eqb_eq in E.
    split; [|intros [Hne _]; contradiction].
    intros Hin. exfalso.
    rewrite (check_state_transition_same pf s1 E) in Hin, F3, F5.
    rewrite events_between_refl in Hin.
    repeat (apply in_app_or in Hin; destruct Hin as [Hin|Hin]).
    + destruct Hin as [H|[]]; discriminate.
    + destruct Hin.
    + exact (no_mode_exit_in_behavior m _ F3 Hin).
    + destruct Hin as [H|[H|[]]]; discriminate.
    + exact (no_mode_exit_in_fault m _ F5 Hin).
    + destruct Hin as [H|[]]; discriminate.
  - assert (Hne : evaluate_transition_conditions pf s1
                  <> current_mode (current_state s1)).
    { intros H. apply ADCSMode_eqb_eq in H. congruence. }
    destruct (check_state_transition_change pf s1 Hne) as [_ Hl].
    rewrite (events_between_app _ _ _ Hl).
    split.
    + intros Hin. split; [exact Hne|].
      repeat (apply in_app_or in Hin; destruct Hin as [Hin|Hin]).
      * destruct Hin as [H|[]]; discriminate.
      * destruct Hin as [H|[H|[H|[]]]]; try discriminate.
        injection H as H. symmetry. exact H.
      * exfalso. exact (no_mode_exit_in_behavior m _ F3 Hin).
      * destruct Hin as [H|[H|[]]]; discriminate.
      * exfalso. exact (no_mode_exit_in_fault m _ F5 Hin).
      * destruct Hin as [H|[]]; discriminate.
    + intros [_ Hm]. subst m.
      apply in_or_app. right. apply in_or_app. left. left. reflexivity.
Qed.

(** The modes one cycle can lead to. *)
Lemma run_cycle_mode_cases (pf : Platform) (s : StateMachine) :
  let b := current_mode (current_state s) in
  let a := current_mode (current_state (run_cycle pf s)) in
  a = b \/ a = DETUMBLING \/ a = SAFE_MODE
  \/ (b = DETUMBLING /\ a = SUN_ACQUISITION)
  \/ (b = SUN_ACQUISITION /\ a = NOMINAL_POINTING).
Proof.
  intros b a. subst a.
  destruct (run_cycle_state pf s) as [_ [_ H]]. cbv zeta in H. rewrite H.
  pose proof (check_state_transition_mode pf (update_sensor_data pf s)) as Hm.
  assert (Hc : evaluate_transition_conditions pf (update_sensor_data pf s) = b
               \/ (b = DETUMBLING
                   /\ evaluate_transition_conditions pf
                        (update_sensor_data pf s) = SUN_ACQUISITION)
               \/ (b = SUN_ACQUISITION
                   /\ evaluate_transition_conditions pf
                        (update_sensor_data pf s) = NOMINAL_POINTING)).
  { destruct (ADCSMode_eqb
                (evaluate_transition_conditions pf (update_sensor_data pf s))
                (current_mode (current_state (update_sensor_data pf s))))
             eqn:E.
    - apply ADCSMode_eqb_eq in E. left. exact E.
    - right.
      assert (Hne : evaluate_transition_conditions pf (update_sensor_data pf s)
                    <> current_mode (current_state (update_sensor_data pf s)))
        by (intros H'; apply ADCSMode_eqb_eq in H'; congruence).
      exact (evaluate_transition_conditions_edges pf _ Hne). }
  rewrite <- Hm in Hc.
  destruct (sensed_fault pf); cbn [current_mode set_current_mode]; tauto.
Qed.

Lemma StateMachine_ctor_mode
      (is_corrupt is_state_safe : ADCSState -> ADCSMode -> bool)
      (record : ADCSState) :
  current_mode (current_state (StateMachine_ctor is_corrupt is_state_safe record))
  = SAFE_MODE
  \/ current_mode
       (current_state (StateMachine_ctor is_corrupt is_state_safe record))
     = DETUMBLING.
Proof.
  unfold StateMachine_ctor. cbn [emit current_state].
  destruct (is_corrupt record (current_mode record)); [left; reflexivity|].
  destruct (is_state_safe record (current_mode record));
    [right|left]; reflexivity.
Qed.

(** X5: in one cycle the mode stays, or falls to DETUMBLING or SAFE_MODE, or
    advances by one edge (DETUMBLING to SUN_ACQUISITION, SUN_ACQUISITION to
    NOMINAL_POINTING).  So the cycle that follows the constructor never ends
    in NOMINAL_POINTING: pointing takes at least two cycles after boot. *)
Theorem run_cycle_mode_edges :
  forall (pf : Platform) (sm : StateMachine)
         (is_corrupt is_state_safe : ADCSState -> ADCSMode -> bool)
         (record : ADCSState),
    let before := current_mode (current_state sm) in
    let after := current_mode (current_state (run_cycle pf sm)) in
    (after = before \/ after = DETUMBLING \/ after = SAFE_MODE
     \/ (before = DETUMBLING /\ after = SUN_ACQUISITION)
     \/ (before = SUN_ACQUISITION /\ after = NOMINAL_POINTING))
    /\ current_mode
         (current_state
            (run_cycle pf (StateMachine_ctor is_corrupt is_state_safe record)))
       <> NOMINAL_POINTING.
Proof.
  intros pf sm is_corrupt is_state_safe record before after.
  split; [apply run_cycle_mode_cases|].
  pose proof (run_cycle_mode_cases pf
                (StateMachine_ctor is_corrupt is_state_safe record)) as G.
  cbv zeta in G.
  intros Hn. rewrite Hn in G.
  destruct (StateMachine_ctor_mode is_corrupt is_state_safe record)
    as [Hb|Hb]; rewrite Hb in G;
    destruct G as [G|[G|[G|[[G1 G2]|[G1 G2]]]]]; congruence.
Qed.

(** ** Runs of the main loop *)

Lemma run_cycle_log (pf : Platform) (sm : StateMachine) :
  log (run_cycle pf sm) = log sm ++ cycle_events pf sm.
Proof.
  assert (H : exists evs, log (run_cycle pf sm) = log sm ++ evs).
  { unfold run_cycle, refresh_watchdog, check_for_hardware_reset,
      check_for_software_reset.
    cbv zeta.
    rewrite log_emit, manage_faults_log, !log_emit, execute_mode_entry_log.
    destruct (check_state_transition_log pf (update_sensor_data pf sm))
      as [t [L _]].
    rewrite L, update_sensor_data_log.
    repeat rewrite <- app_assoc. eexists. reflexivity. }
  destruct H as [evs H]. unfold cycle_events.
  rewrite (events_between_app _ _ _ H). exact H.
Qed.

Lemma main_loop_log (pfs : list Platform) (sm : StateMachine) :
  log (main_loop pfs sm) = log sm ++ run_events pfs sm.
Proof.
  revert sm. induction pfs as [|pf rest IH]; intros sm.
  - cbn. symmetry. apply app_nil_r.
  - change (main_loop (pf :: rest) sm) with (main_loop rest (run_cycle pf sm)).
    rewrite IH, run_cycle_log. cbn [run_events].
    rewrite app_assoc. reflexivity.
Qed.

Lemma main_loop_invariant (P : StateMachine -> Prop) :
  (forall pf sm, P sm -> P (run_cycle pf sm)) ->
  forall pfs sm, P sm -> P (main_loop pfs sm).
Proof.
  intros Hstep pfs. induction pfs as [|pf rest IH]; intros sm Hsm.
  - exact Hsm.
  - change (main_loop (pf :: rest) sm) with (main_loop rest (run_cycle pf sm)).
    apply IH, Hstep, Hsm.
Qed.

Lemma filter_none {A} (p : A -> bool) (P : A -> Prop) (l : list A) :
  Forall P l -> (forall a, P a -> p a = false) -> filter p l = [].
Proof.
  intros F H. induction F as [|a l Pa _ IH]; [reflexivity|].
  cbn. rewrite (H a Pa). exact IH.
Qed.

Lemma behavior_is_transition_event (e : Event) :
  behavior_event e -> transition_event e.
Proof. destruct e; cbn; tauto. Qed.

(** Counting, in one cycle, events of a kind that neither the transition
    step nor fault handling produces. *)
Lemma cycle_events_count (p : Event -> bool) (pf : Platform)
      (sm : StateMachine) :
  (forall e, transition_event e -> p e = false) ->
  (forall e, fault_event e -> p e = false) ->
  p E_read_sensors = false ->
  p E_check_for_software_reset = false ->
  p E_check_for_hardware_reset = false ->
  count_events p (cycle_events pf sm)
  = if p E_watchdog_refresh then 1%nat else 0%nat.
Proof.
  intros Ht Hf Hr Hs Hh.
  destruct (cycle_events_split pf sm) as [Hall _]. cbv zeta in Hall.
  rewrite Hall. clear Hall. unfold count_events.
  destruct (check_state_transition_log pf (update_sensor_data pf sm))
    as [t2 [L2 F2]].
  rewrite (events_between_app _ _ _ L2).
  rewrite !filter_app.
  rewrite (filter_none p transition_event t2 F2 Ht).
  rewrite (filter_none p behavior_event _ (behavior_events_of_mode pf _ _)
             (fun e H => Ht e (behavior_is_transition_event e H))).
  rewrite (filter_none p fault_event _ (fault_events_of_manage_faults pf _) Hf).
  cbn. rewrite Hr, Hs, Hh.
  destruct (p E_watchdog_refresh); reflexivity.
Qed.

Lemma run_events_count (p : Event -> bool) (k : nat) :
  (forall pf sm, count_events p (cycle_events pf sm) = k) ->
  forall pfs sm,
    count_events p (run_events pfs sm) = (length pfs * k)%nat.
Proof.
  intros Hc pfs. induction pfs as [|pf rest IH]; intros sm; [reflexivity|].
  cbn [run_events length]. unfold count_events in *.
  rewrite filter_app, length_app, Hc, IH. cbn. reflexivity.
Qed.

Lemma main_log (is_corrupt is_state_safe : ADCSState -> ADCSMode -> bool)
      (record : ADCSState) (pfs : list Platform) :
  log (main is_corrupt is_state_safe record pfs)
  = E_nvm_read :: E_watchdog_initialize
      :: run_events pfs (StateMachine_ctor is_corrupt is_state_safe record).
Proof.
  unfold main. rewrite main_loop_log.
  unfold StateMachine_ctor at 1. cbn [emit log current_state].
  destruct (is_corrupt record (current_mode record));
    [|destruct (is_state_safe record (current_mode record))]; reflexivity.
Qed.

(** X6: the watchdog is armed once, by the constructor, before the first
    cycle, and every cycle of the main loop refreshes it exactly once: after
    [n] cycles the log holds one initialisation and [n] refreshes. *)
Theorem watchdog_armed_once_refreshed_every_cycle :
  forall (is_corrupt is_state_safe : ADCSState -> ADCSMode -> bool)
         (record : ADCSState) (pfs : list Platform),
    let boot := StateMachine_ctor is_corrupt is_state_safe record in
    log (main is_corrupt is_state_safe record pfs)
    = E_nvm_read :: E_watchdog_initialize :: run_events pfs boot
    /\ count_events is_watchdog_initialize (run_events pfs boot) = 0%nat
    /\ count_events is_watchdog_refresh (run_events pfs boot) = length pfs.
Proof.
  intros is_corrupt is_state_safe record pfs boot.
  split; [apply main_log|]. split.
  - rewrite (run_events_count is_watchdog_initialize 0).
    + apply Nat.mul_0_r.
    + intros pf sm.
      rewrite cycle_events_count; try reflexivity;
        intros e He; destruct e; try reflexivity; contradiction.
  - rewrite (run_events_count is_watchdog_refresh 1).
    + apply Nat.mul_1_r.
    + intros pf sm.
      rewrite cycle_events_count; try reflexivity;
        intros e He; destruct e; try reflexivity; contradiction.
Qed.

Lemma manage_faults_never_resets (pf : Platform) (sm : StateMachine) :
  filter is_reset (events_between sm (manage_faults pf sm)) = [].
Proof.
  rewrite (events_between_app _ _ _ (manage_faults_log pf sm)).
  destruct (check_faults_cases pf (current_state sm)) as [H|[H|[H|H]]];
    rewrite H; reflexivity.
Qed.

Lemma cycle_never_resets (pf : Platform) (sm : StateMachine) :
  count_events is_reset (cycle_events pf sm) = 0%nat.
Proof.
  destruct (cycle_events_split pf sm) as [Hall _]. cbv zeta in Hall.
  rewrite Hall. clear Hall. unfold count_events.
  destruct (check_state_transition_log pf (update_sensor_data pf sm))
    as [t2 [L2 F2]].
  rewrite (events_between_app _ _ _ L2).
  rewrite !filter_app.
  rewrite (filter_none is_reset transition_event t2 F2)
    by (intros e He; destruct e; try reflexivity; contradiction).
  rewrite (filter_none is_reset behavior_event _
             (behavior_events_of_mode pf _ _))
    by (intros e He; destruct e; try reflexivity; contradiction).
  rewrite manage_faults_never_resets. reflexivity.
Qed.

(** X7: no execution of [main], from the constructor through any number of
    cycles and whatever the sensors and stubs answer, ever calls
    [execute_software_reset] or [execute_hardware_reset]. *)
Theorem main_never_resets :
  forall (is_corrupt is_state_safe : ADCSState -> ADCSMode -> bool)
         (record : ADCSState) (pfs : list Platform),
    count_events is_reset (log (main is_corrupt is_state_safe record pfs))
    = 0%nat
    /\ ~ In E_execute_software_reset
            (log (main is_corrupt is_state_safe record pfs))
    /\ ~ In E_execute_hardware_reset
            (log (main is_corrupt is_state_safe record pfs)).
Proof.
  intros is_corrupt is_state_safe record pfs.
  assert (H : count_events is_reset
                (log (main is_corrupt is_state_safe record pfs)) = 0%nat).
  { rewrite main_log. unfold count_events. cbn [filter is_reset].
    fold (count_events is_reset
            (run_events pfs
               (StateMachine_ctor is_corrupt is_state_safe record))).
    rewrite (run_events_count is_reset 0 cycle_never_resets).
    apply Nat.mul_0_r. }
  split; [exact H|].
  unfold count_events in H. apply length_zero_iff_nil in H.
  split; intros Hin.
  - assert (Hf : In E_execute_software_reset
                    (filter is_reset
                       (log (main is_corrupt is_state_safe record pfs))))
      by (apply filter_In; split; [exact Hin | reflexivity]).
    rewrite H in Hf. destruct Hf.
  - assert (Hf : In E_execute_hardware_reset
                    (filter is_reset
                       (log (main is_corrupt is_state_safe record pfs))))
      by (apply filter_In; split; [exact Hin | reflexivity]).
    rewrite H in Hf. destruct Hf.
Qed.

(** ** Modes over a run *)

Lemma run_cycle_keeps_out_of_fault_recovery (pf : Platform)
      (sm : StateMachine) :
  current_mode (current_state sm) <> FAULT_RECOVERY ->
  current_mode (current_state (run_cycle pf sm)) <> FAULT_RECOVERY.
Proof.
  intros Hb Ha.
  pose proof (run_cycle_mode_cases pf sm) as G. cbv zeta in G.
  rewrite Ha in G.
  destruct G as [G|[G|[G|[[G1 G2]|[G1 G2]]]]]; congruence.
Qed.

(** X8: FAULT_RECOVERY is never the mode of a machine built by the
    constructor and driven by the main loop: no cycle enters it, and the
    constructor starts in SAFE_MODE or DETUMBLING. *)
Theorem main_never_in_fault_recovery :
  forall (is_corrupt is_state_safe : ADCSState -> ADCSMode -> bool)
         (record : ADCSState) (pfs : list Platform),
    current_mode (current_state (main is_corrupt is_state_safe record pfs))
    <> FAULT_RECOVERY.
Proof.
  intros is_corrupt is_state_safe record pfs. unfold main.
  apply (main_loop_invariant
           (fun sm => current_mode (current_state sm) <> FAULT_RECOVERY)).
  - intros pf sm. apply run_cycle_keeps_out_of_fault_recovery.
  - destruct (StateMachine_ctor_mode is_corrupt is_state_safe record)
      as [H|H]; rewrite H; discriminate.
Qed.

Lemma nominal_cycle (pf : Platform) (sm : StateMachine) :
  current_mode (current_state sm) = NOMINAL_POINTING ->
  mode_keeping pf ->
  current_mode (current_state (run_cycle pf sm)) = NOMINAL_POINTING
  /\ mode_entry_time (current_state (run_cycle pf sm))
     = mode_entry_time (current_state sm)
  /\ nvm_writes (cycle_events pf sm) = [].
Proof.
  intros Hm [Hh Hl].
  assert (Hc : evaluate_transition_conditions pf (update_sensor_data pf sm)
               = current_mode (current_state (update_sensor_data pf sm))).
  { unfold evaluate_transition_conditions.
    rewrite update_sensor_data_mode, Hm. reflexivity. }
  destruct (run_cycle_state pf sm) as [_ [_ H]]. cbv zeta in H.
  rewrite (check_state_transition_same pf _ Hc) in H.
  split; [|split].
  - rewrite H.
    destruct (sensed_fault pf); try contradiction;
      rewrite update_sensor_data_mode; exact Hm.
  - rewrite H. destruct (sensed_fault pf); try contradiction; reflexivity.
  - rewrite cycle_nvm_writes.
    rewrite (check_state_transition_same pf _ Hc), events_between_refl.
    rewrite (events_between_app _ _ _ (execute_mode_entry_log pf _ _)).
    rewrite update_sensor_data_mode, Hm. reflexivity.
Qed.

(** X9: NOMINAL_POINTING has no exit of its own.  Through any number of
    cycles whose readings show neither a high rate nor low power, a machine
    in NOMINAL_POINTING stays there, keeps its entry time and writes nothing
    to the store. *)
Theorem nominal_pointing_holds_without_fault :
  forall (pfs : list Platform) (sm : StateMachine),
    current_mode (current_state sm) = NOMINAL_POINTING ->
    Forall mode_keeping pfs ->
    current_mode (current_state (main_loop pfs sm)) = NOMINAL_POINTING
    /\ mode_entry_time (current_state (main_loop pfs sm))
       = mode_entry_time (current_state sm)
    /\ nvm_writes (run_events pfs sm) = [].
Proof.
  intros pfs. induction pfs as [|pf rest IH]; intros sm Hm HF.
  - repeat split. exact Hm.
  - inversion HF as [|? ? Hpf Hrest]; subst.
    destruct (nominal_cycle pf sm Hm Hpf) as [Hm' [Ht' Hw']].
    destruct (IH (run_cycle pf sm) Hm' Hrest) as [Hm2 [Ht2 Hw2]].
    change (main_loop (pf :: rest) sm) with (main_loop rest (run_cycle pf sm)).
    cbn [run_events]. rewrite nvm_writes_app, Hw', Hw2.
    repeat split; [exact Hm2 | congruence].
Qed.

Lemma nominal_pointing_holds_without_fault_witness :
  current_mode (current_state (state_in NOMINAL_POINTING)) = NOMINAL_POINTING
  /\ Forall mode_keeping [scenario5_platform; scenario5_platform]
  /\ current_mode
       (current_state
          (main_loop [scenario5_platform; scenario5_platform]
             (state_in NOMINAL_POINTING))) = NOMINAL_POINTING.
Proof.
  assert (Hk : mode_keeping scenario5_platform)
    by (split; vm_compute; discriminate).
  assert (HF : Forall mode_keeping [scenario5_platform; scenario5_platform])
    by (constructor; [exact Hk | constructor; [exact Hk | constructor]]).
  split; [reflexivity|]. split; [exact HF|].
  exact (proj1 (nominal_pointing_holds_without_fault
                  [scenario5_platform; scenario5_platform]
                  (state_in NOMINAL_POINTING) eq_refl HF)).
Defined.

(** ** What reaches the store *)

Lemma cycle_writes_saved_shape (pf : Platform) (sm : StateMachine) :
  Forall saved_shape (nvm_writes (cycle_events pf sm)).
Proof.
  rewrite cycle_nvm_writes. apply Forall_app. split.
  - destruct (ADCSMode_eqb
                (evaluate_transition_conditions pf (update_sensor_data pf sm))
                (current_mode (current_state (update_sensor_data pf sm))))
             eqn:E.
    + apply ADCSMode_eqb_eq in E.
      rewrite (check_state_transition_same pf _ E), events_between_refl.
      constructor.
    + assert (Hne : evaluate_transition_conditions pf
                      (update_sensor_data pf sm)
                    <> current_mode
                         (current_state (update_sensor_data pf sm)))
        by (intros H; apply ADCSMode_eqb_eq in H; congruence).
      destruct (check_state_transition_change pf _ Hne) as [_ Hl].
      rewrite (events_between_app _ _ _ Hl). cbn [nvm_writes].
      constructor; [|constructor].
      unfold saved_shape. cbn.
      destruct (evaluate_transition_conditions_edges pf _ Hne)
        as [[_ Hc]|[_ Hc]]; rewrite Hc; tauto.
  - rewrite (events_between_app _ _ _ (execute_mode_entry_log pf _ _)).
    destruct (current_mode
                (current_state
                   (check_state_transition pf (update_sensor_data pf sm))))
             eqn:Hm; cbn [nvm_writes]; try constructor; [|constructor].
    unfold saved_shape. cbn. tauto.
Qed.

(** X10: every record the main loop ever hands to the store names
    SUN_ACQUISITION, NOMINAL_POINTING or SAFE_MODE as its mode (DETUMBLING
    and FAULT_RECOVERY are never stored) and has its entry time, angular
    velocity, power level and checksum members at zero: only the mode and
    the timestamp carry information. *)
Theorem stored_records_shape :
  forall (pfs : list Platform) (sm : StateMachine),
    Forall saved_shape (nvm_writes (run_events pfs sm)).
Proof.
  intros pfs. induction pfs as [|pf rest IH]; intros sm.
  - constructor.
  - cbn [run_events]. rewrite nvm_writes_app. apply Forall_app.
    split; [apply cycle_writes_saved_shape | apply IH].
Qed.

(** ** Cycles in SAFE_MODE *)

Lemma evaluate_in_safe_mode (pf : Platform) (sm : StateMachine) :
  current_mode (current_state sm) = SAFE_MODE ->
  evaluate_transition_conditions pf (update_sensor_data pf sm)
  = current_mode (current_state (update_sensor_data pf sm)).
Proof.
  intros Hm. unfold evaluate_transition_conditions.
  rewrite update_sensor_data_mode, Hm.
  destruct (power_restored pf _); reflexivity.
Qed.

Lemma safe_mode_cycle_core (pf : Platform) (sm : StateMachine) :
  current_mode (current_state sm) = SAFE_MODE ->
  current_mode (current_state (run_cycle pf sm))
  = match sensed_fault pf with
    | FaultManager.HIGH_ANGULAR_RATE => DETUMBLING
    | _ => SAFE_MODE
    end
  /\ mode_entry_time (current_state (run_cycle pf sm))
     = mode_entry_time (current_state sm)
  /\ nvm_writes (cycle_events pf sm)
     = [NonVolatileMemory.mk_ADCSState SAFE_MODE 0 array3_zero float_zero
          (float_of_Z (mode_entry_time (current_state sm))) float_zero].
Proof.
  intros Hm.
  pose proof (evaluate_in_safe_mode pf sm Hm) as Hc.
  destruct (run_cycle_state pf sm) as [_ [_ H]]. cbv zeta in H.
  rewrite (check_state_transition_same pf _ Hc) in H.
  split; [|split].
  - rewrite H. destruct (sensed_fault pf); try reflexivity;
      rewrite update_sensor_data_mode; exact Hm.
  - rewrite H. destruct (sensed_fault pf); reflexivity.
  - rewrite cycle_nvm_writes.
    rewrite (check_state_transition_same pf _ Hc), events_between_refl.
    rewrite (events_between_app _ _ _ (execute_mode_entry_log pf _ _)).
    rewrite update_sensor_data_mode, Hm. reflexivity.
Qed.

(** X11: a cycle started in SAFE_MODE reads the sensors, runs the safe-mode
    behaviour, which saves a record with mode SAFE_MODE stamped with the
    entry time the machine already had, runs the two reset checks, the
    action of this cycle's fault if any, and refreshes the watchdog.  It
    ends in DETUMBLING on a high angular rate and in SAFE_MODE otherwise,
    whatever [power_restored] answers. *)
Theorem safe_mode_cycle :
  forall (pf : Platform) (sm : StateMachine),
    current_mode (current_state sm) = SAFE_MODE ->
    cycle_events pf sm
    = [E_read_sensors; E_run_mode SAFE_MODE;
       E_nvm_write
         (NonVolatileMemory.mk_ADCSState SAFE_MODE 0 array3_zero float_zero
            (float_of_Z (mode_entry_time (current_state sm))) float_zero);
       E_check_for_software_reset; E_check_for_hardware_reset]
      ++ match sensed_fault pf with
         | FaultManager.HIGH_ANGULAR_RATE => [E_engage_magnetorquers]
         | FaultManager.LOW_POWER => [E_power_system_slowdown]
         | FaultManager.SENSOR_ANOMALY => [E_reset_sensor_array]
         | _ => []
         end
      ++ [E_watchdog_refresh]
    /\ current_mode (current_state (run_cycle pf sm))
       = match sensed_fault pf with
         | FaultManager.HIGH_ANGULAR_RATE => DETUMBLING
         | _ => SAFE_MODE
         end.
Proof.
  intros pf sm Hm.
  split; [|exact (proj1 (safe_mode_cycle_core pf sm Hm))].
  pose proof (evaluate_in_safe_mode pf sm Hm) as Hc.
  destruct (cycle_events_split pf sm) as [Hall _]. cbv zeta in Hall.
  rewrite Hall. clear Hall.
  rewrite (check_state_transition_same pf _ Hc), events_between_refl.
  rewrite (events_between_app _ _ _ (execute_mode_entry_log pf _ _)).
  rewrite (events_between_app _ _ _ (manage_faults_log pf _)).
  rewrite update_sensor_data_mode, Hm.
  rewrite (check_faults_reads_sensors pf)
    by (unfold check_for_hardware_reset, check_for_software_reset;
        cbn [emit current_state]; rewrite execute_mode_entry_state;
        reflexivity).
  unfold sensed_fault.
  destruct (check_faults_cases pf
              (mk_ADCSState DETUMBLING 0 (read_imu pf) (read_power_system pf)))
    as [H|[H|[H|H]]]; rewrite H; reflexivity.
Qed.

Lemma safe_mode_cycle_witness :
  current_mode (current_state (state_in SAFE_MODE)) = SAFE_MODE
  /\ current_mode
       (current_state (run_cycle scenario5_platform (state_in SAFE_MODE)))
     = SAFE_MODE.
Proof.
  split; [reflexivity|].
  exact (proj2 (safe_mode_cycle scenario5_platform (state_in SAFE_MODE)
                  eq_refl)).
Defined.

(** X12: while no cycle reads a high angular rate, a machine in SAFE_MODE
    stays in SAFE_MODE with its entry time unchanged, and the store receives
    one record per cycle: [n] cycles give [n] writes. *)
Theorem safe_mode_run_writes_every_cycle :
  forall (pfs : list Platform) (sm : StateMachine),
    current_mode (current_state sm) = SAFE_MODE ->
    Forall (fun pf => sensed_fault pf <> FaultManager.HIGH_ANGULAR_RATE) pfs ->
    current_mode (current_state (main_loop pfs sm)) = SAFE_MODE
    /\ mode_entry_time (current_state (main_loop pfs sm))
       = mode_entry_time (current_state sm)
    /\ length (nvm_writes (run_events pfs sm)) = length pfs.
Proof.
  intros pfs. induction pfs as [|pf rest IH]; intros sm Hm HF.
  - repeat split. exact Hm.
  - inversion HF as [|? ? Hpf Hrest]; subst.
    destruct (safe_mode_cycle_core pf sm Hm) as [Hm' [Ht' Hw']].
    assert (Hs : current_mode (current_state (run_cycle pf sm)) = SAFE_MODE).
    { rewrite Hm'. destruct (sensed_fault pf); try reflexivity.
      contradiction. }
    destruct (IH (run_cycle pf sm) Hs Hrest) as [Hm2 [Ht2 Hw2]].
    change (main_loop (pf :: rest) sm) with (main_loop rest (run_cycle pf sm)).
    cbn [run_events length].
    rewrite nvm_writes_app, length_app, Hw', Hw2.
    repeat split; [exact Hm2 | congruence].
Qed.

Lemma safe_mode_run_writes_every_cycle_witness :
  current_mode (current_state (state_in SAFE_MODE)) = SAFE_MODE
  /\ Forall (fun pf => sensed_fault pf <> FaultManager.HIGH_ANGULAR_RATE)
            [scenario4_platform; scenario5_platform]
  /\ length (nvm_writes
               (run_events [scenario4_platform; scenario5_platform]
                  (state_in SAFE_MODE))) = 2%nat.
Proof.
  assert (HF : Forall (fun pf => sensed_fault pf
                                 <> FaultManager.HIGH_ANGULAR_RATE)
                      [scenario4_platform; scenario5_platform])
    by (constructor; [vm_compute; discriminate
                     | constructor; [vm_compute; discriminate | constructor]]).
  split; [reflexivity|]. split; [exact HF|].
  exact (proj2 (proj2 (safe_mode_run_writes_every_cycle
                         [scenario4_platform; scenario5_platform]
                         (state_in SAFE_MODE) eq_refl HF))).
Defined.

(** ** The stored timestamp *)

Lemma all_from_spec (p : Z -> bool) (fuel : nat) :
  forall n, all_from p n fuel = true ->
            forall m, n <= m < n + Z.of_nat fuel -> p m = true.
Proof.
  induction fuel as [|k IH]; intros n H m Hm.
  - cbn in Hm. lia.
  - cbn [all_from] in H. apply andb_true_iff in H as [Hn Hrest].
    destruct (Z.eq_dec m n) as [->|Hne]; [exact Hn|].
    apply (IH (n + 1) Hrest). lia.
Qed.

(** A 16-bit clock value survives the conversion to [float]. *)
Lemma float_of_u16_exact (n : Z) :
  0 <= n < 65536 -> float_to_Z (float_of_Z n) = n.
Proof.
  intros Hn.
  assert (H : all_from (fun k => Z.eqb (float_to_Z (float_of_Z k)) k)
                       0 (Z.to_nat 65536) = true)
    by (vm_compute; reflexivity).
  apply Z.eqb_eq.
  apply (all_from_spec _ _ _ H n).
  rewrite Z2Nat.id; lia.
Qed.

(** X13: on a transition the timestamp stored as a [float] reads back, as an
    integer, as exactly the entry time the live state holds after the cycle:
    the clock is 16 bits wide and a [float] represents every such value. *)
Theorem transition_timestamp_reads_back :
  forall (pf : Platform) (sm : StateMachine),
    let s1 := update_sensor_data pf sm in
    evaluate_transition_conditions pf s1 <> current_mode (current_state s1) ->
    exists r,
      nvm_writes (cycle_events pf sm) = [r]
      /\ float_to_Z (NonVolatileMemory.timestamp r)
         = mode_entry_time (current_state (run_cycle pf sm))
      /\ mode_entry_time (current_state (run_cycle pf sm))
         = wrap_u16 (get_current_time pf).
Proof.
  intros pf sm s1 Hne.
  destruct (transition_cycle_writes pf sm Hne) as [_ Hw]. fold s1 in Hw.
  assert (Ht : mode_entry_time (current_state (run_cycle pf sm))
               = wrap_u16 (get_current_time pf)).
  { destruct (run_cycle_state pf sm) as [_ [_ H]]. cbv zeta in H.
    fold s1 in H. rewrite H, check_state_transition_state.
    destruct (ADCSMode_eqb (evaluate_transition_conditions pf s1)
                           (current_mode (current_state s1))) eqn:E.
    - apply ADCSMode_eqb_eq in E. contradiction.
    - destruct (sensed_fault pf); reflexivity. }
  eexists. split; [exact Hw|]. split; [|exact Ht].
  rewrite Ht. cbn [NonVolatileMemory.timestamp].
  apply float_of_u16_exact, wrap_u16_range.
Qed.

Lemma transition_timestamp_reads_back_witness :
  evaluate_transition_conditions scenario5_platform
    (update_sensor_data scenario5_platform (state_in DETUMBLING))
  <> current_mode
       (current_state
          (update_sensor_data scenario5_platform (state_in DETUMBLING)))
  /\ exists r,
      nvm_writes (cycle_events scenario5_platform (state_in DETUMBLING)) = [r]
      /\ float_to_Z (NonVolatileMemory.timestamp r) = 7.
Proof.
  assert (Hne : evaluate_transition_conditions scenario5_platform
                  (update_sensor_data scenario5_platform (state_in DETUMBLING))
                <> current_mode
                     (current_state
                        (update_sensor_data scenario5_platform
                           (state_in DETUMBLING))))
    by (vm_compute; discriminate).
  split; [exact Hne|].
  destruct (transition_timestamp_reads_back
              scenario5_platform (state_in DETUMBLING) Hne)
    as [r [Hw [Hr Ht]]].
  exists r. split; [exact Hw|].
  rewrite Hr, Ht. reflexivity.
Defined.

(** ** The tests of the fault manager *)

Lemma SFabs_flip_sign (b : bool) (x : float) :
  SFabs (flip_sign b x) = SFabs x.
Proof. destruct b, x; reflexivity. Qed.

(** X14: the rate test looks at magnitudes only: flipping the sign of any
    component of the angular velocity changes neither its answer nor the
    fault the classifier reports. *)
Theorem check_angular_rate_ignores_sign :
  forall (pf : Platform) (s : ADCSState) (b0 b1 b2 : bool) (x y z : float),
    let v := mk_array3 x y z in
    let w := mk_array3 (flip_sign b0 x) (flip_sign b1 y) (flip_sign b2 z) in
    FaultManager.check_angular_rate (set_angular_velocity w s)
    = FaultManager.check_angular_rate (set_angular_velocity v s)
    /\ FaultManager.check_faults pf (set_angular_velocity w s)
       = FaultManager.check_faults pf (set_angular_velocity v s).
Proof.
  intros pf s b0 b1 b2 x y z v w.
  assert (H : FaultManager.check_angular_rate (set_angular_velocity w s)
              = FaultManager.check_angular_rate (set_angular_velocity v s)).
  { unfold FaultManager.check_angular_rate. subst v w.
    cbn [set_angular_velocity angular_velocity at0 at1 at2].
    rewrite !SFabs_flip_sign. reflexivity. }
  split; [exact H|].
  unfold FaultManager.check_faults. rewrite H. reflexivity.
Qed.


(** X16: both thresholds are strict and tight.  Components of magnitude
    exactly [0.1f], of any signs, are no high rate, and exactly [4.0f] watts
    is not low power; the next [float] above [0.1f] on one axis is a high
    rate and the next [float] below [4.0f] is low power. *)
Theorem fault_thresholds_are_strict :
  forall (s : ADCSState) (b0 b1 b2 : bool),
    let lim := FaultManager.MAX_ANGULAR_RATE in
    let pw := FaultManager.LOW_POWER_THRESHOLD in
    FaultManager.check_angular_rate
      (set_angular_velocity
         (mk_array3 (flip_sign b0 lim) (flip_sign b1 lim) (flip_sign b2 lim)) s)
    = false
    /\ FaultManager.check_power_level (set_power_level pw s) = false
    /\ FaultManager.check_angular_rate
         (set_angular_velocity
            (mk_array3 float_zero float_zero
               (flip_sign b2 (SFsucc prec emax lim))) s) = true
    /\ FaultManager.check_power_level
         (set_power_level (SFpred prec emax pw) s) = true.
Proof.
  intros s b0 b1 b2 lim pw.
  repeat split; try reflexivity;
    destruct b0, b1, b2; vm_compute; reflexivity.
Qed.

(** ** A cycle that takes a transition *)

(** X17: a cycle in which [check_state_transition] takes a transition runs
    the exit action of the old mode, then the behaviour of the new mode as
    entry action, saves, and runs the behaviour of the new mode a second time
    as the cycle's regular behaviour, before the reset checks, the action of
    this cycle's fault if any, and the watchdog refresh.  When that fault is
    a high rate or low power, the machine ends the cycle in another mode
    than the one just stored. *)
Theorem transition_cycle :
  forall (pf : Platform) (sm : StateMachine),
    let s1 := update_sensor_data pf sm in
    let cur := current_mode (current_state sm) in
    let cand := evaluate_transition_conditions pf s1 in
    let r := NonVolatileMemory.mk_ADCSState cand 0 array3_zero float_zero
               (float_of_Z (wrap_u16 (get_current_time pf))) float_zero in
    cand <> current_mode (current_state s1) ->
    cycle_events pf sm
    = [E_read_sensors; E_mode_exit cur; E_run_mode cand; E_nvm_write r;
       E_run_mode cand; E_check_for_software_reset;
       E_check_for_hardware_reset]
      ++ match sensed_fault pf with
         | FaultManager.HIGH_ANGULAR_RATE => [E_engage_magnetorquers]
         | FaultManager.LOW_POWER => [E_power_system_slowdown]
         | FaultManager.SENSOR_ANOMALY => [E_reset_sensor_array]
         | _ => []
         end
      ++ [E_watchdog_refresh]
    /\ (sensed_fault pf = FaultManager.HIGH_ANGULAR_RATE
        \/ sensed_fault pf = FaultManager.LOW_POWER ->
        NonVolatileMemory.current_mode r
        <> current_mode (current_state (run_cycle pf sm))).
Proof.
  intros pf sm s1 cur cand r Hne. subst r.
  destruct (check_state_transition_change pf s1 Hne) as [Hs Hl].
  fold cand in Hs, Hl.
  destruct (run_cycle_state pf sm) as [Hv [Hp Hfinal]].
  cbv zeta in Hv, Hp, Hfinal. fold s1 in Hv, Hp, Hfinal.
  assert (Hcand : cand = SUN_ACQUISITION \/ cand = NOMINAL_POINTING).
  { destruct (evaluate_transition_conditions_edges pf s1 Hne)
      as [[_ H]|[_ H]]; fold cand in H; tauto. }
  split.
  - destruct (cycle_events_split pf sm) as [Hall _]. cbv zeta in Hall.
    fold s1 in Hall. rewrite Hall. clear Hall.
    rewrite (events_between_app _ _ _ Hl).
    rewrite (events_between_app _ _ _ (execute_mode_entry_log pf _ _)).
    rewrite (events_between_app _ _ _ (manage_faults_log pf _)).
    rewrite (check_faults_reads_sensors pf)
      by (unfold check_for_hardware_reset, check_for_software_reset;
          cbn [emit current_state]; rewrite execute_mode_entry_state;
          assumption).
    rewrite Hs. cbn [current_mode set_mode_entry_time set_current_mode].
    change (current_mode (current_state s1)) with cur.
    unfold sensed_fault.
    destruct (check_faults_cases pf
                (mk_ADCSState DETUMBLING 0 (read_imu pf)
                   (read_power_system pf)))
      as [H|[H|[H|H]]]; rewrite H;
      destruct Hcand as [Hc|Hc]; rewrite Hc; reflexivity.
  - intros Hf. rewrite Hfinal. cbn [NonVolatileMemory.current_mode].
    destruct Hf as [Hf|Hf]; rewrite Hf; cbn [current_mode set_current_mode];
      destruct Hcand as [Hc|Hc]; rewrite Hc; discriminate.
Qed.

Lemma transition_cycle_witness :
  evaluate_transition_conditions scenario5_platform
    (update_sensor_data scenario5_platform (state_in DETUMBLING))
  <> current_mode
       (current_state
          (update_sensor_data scenario5_platform (state_in DETUMBLING)))
  /\ count_events
       (fun e => match e with E_run_mode SUN_ACQUISITION => true | _ => false end)
       (cycle_events scenario5_platform (state_in DETUMBLING)) = 2%nat.
Proof.
  assert (Hne : evaluate_transition_conditions scenario5_platform
                  (update_sensor_data scenario5_platform (state_in DETUMBLING))
                <> current_mode
                     (current_state
                        (update_sensor_data scenario5_platform
                           (state_in DETUMBLING))))
    by (vm_compute; discriminate).
  split; [exact Hne|].
  rewrite (proj1 (transition_cycle scenario5_platform (state_in DETUMBLING)
                    Hne)).
  reflexivity.
Defined.
